(** * x402 payment middleware: a shallow embedding of the TypeScript core
      ([packages/x402/src/middleware/middleware.ts]) and of its Hono,
      Express and Next.js adapters, with the properties of the written
      specification proved (or refuted) against it. *)

From Stdlib Require Import String ZArith List Bool Lia.
From stdpp Require Import base option list strings gmap.

Local Open Scope string_scope.
Local Open Scope list_scope.
Local Open Scope Z_scope.

(** ** JavaScript values the middleware manipulates *)

Module Js.

(** A value of the TypeScript type [Error | string]: what [X402Error]
    stores in its [error] field, and what a collaborator throws (the
    source narrows every caught value with [e as Error]). *)
Inductive ErrorOrString : Type :=
| ErrorObj (name message : string)
| Str (s : string).

(** [String(v)]: the identity on strings, [Error.prototype.toString]
    on error objects. *)
Definition String_ (v : ErrorOrString) : string :=
  match v with
  | Str s => s
  | ErrorObj name message =>
      if decide (name = "") then message
      else if decide (message = "") then name
      else name +:+ ": " +:+ message
  end.

(** Truthiness of a string: only the empty string is falsy. *)
Definition truthy (s : string) : bool := negb (bool_decide (s = "")).

(** [a ?? b] on an optional value. *)
Definition nullish {A : Type} (a : option A) (b : A) : A :=
  match a with Some x => x | None => b end.

(** [`${v}`] for an optional string: [undefined] prints as "undefined". *)
Definition template (v : option string) : string :=
  match v with Some s => s | None => "undefined" end.

#[local] Set Warnings "-register-all".

(** JSON-serialisable values; [JUndefined] is a property holding
    [undefined], which [JSON.stringify] leaves out of the text. *)
Inductive Json : Type :=
| JUndefined
| JNull
| JBool (b : bool)
| JNum (n : Z)
| JStr (s : string)
| JArr (items : list Json)
| JObj (fields : list (string * Json)).

Definition keys (j : Json) : list string :=
  match j with JObj fields => map fst fields | _ => [] end.

Definition of_optional_string (v : option string) : Json :=
  match v with Some s => JStr s | None => JUndefined end.

End Js.
Import Js.

(** ** Data model *)

(** [Resource] is a URI string. *)
Definition Resource := string.

(** [PaymentRequirements], as built by the constructor of
    [PaymentMiddleware] and completed by [paymentRequirements]. *)
Record PaymentRequirements : Type := {
  scheme : string;
  network : string;
  maxAmountRequired : string;
  resource : Resource;
  description : string;
  mimeType : string;
  payTo : string;
  maxTimeoutSeconds : Z;
  asset : string;
  outputSchema : option Json;
  extra : Json;
}.

(** [Omit<PaymentRequirements, "resource">]: the per-route template. *)
Record PaymentReqTemplate : Type := {
  t_scheme : string;
  t_network : string;
  t_maxAmountRequired : string;
  t_description : string;
  t_mimeType : string;
  t_payTo : string;
  t_maxTimeoutSeconds : Z;
  t_asset : string;
  t_outputSchema : option Json;
  t_extra : Json;
}.

Definition X402_VERSION : Z := 1.

(** *** X402Error *)

Record X402Error : Type := new_X402Error {
  error : ErrorOrString;
  accepts : list PaymentRequirements;
  payer : option string;
}.

(** [readonly x402Version = X402_VERSION]. *)
Definition x402Version (e : X402Error) : Z := X402_VERSION.

(** [super(String(error))]: the [message] inherited from [Error]. *)
Definition message (e : X402Error) : string := String_ (error e).

(** What the [error] key of [toJSON] holds: the [message] property of an
    error object, [String(error)] otherwise. *)
Definition error_text (v : ErrorOrString) : string :=
  match v with
  | ErrorObj _ m => m
  | Str _ => String_ v
  end.

Section ToJSON.
(** [toJsonSafe] is imported from ["../shared"]. *)
Variable toJsonSafe : list PaymentRequirements -> Json.

Definition toJSON (e : X402Error) : Json :=
  JObj [ ("x402Version", JNum (x402Version e));
         ("error", JStr (error_text (error e)));
         ("accepts", toJsonSafe (accepts e));
         ("payer", of_optional_string (payer e)) ].
End ToJSON.

(** [PaymentMiddlewareConfigError] carries its message; any other value
    thrown during construction comes from a collaborator. *)
Inductive ConstructionError : Type :=
| PaymentMiddlewareConfigError (message : string)
| ForeignError (e : ErrorOrString).

(** Exceptions of the request path. *)
Inductive Exn : Type :=
| ExnX402 (e : X402Error)
| ExnForeign (e : ErrorOrString).

(** How a computation of the request path ends: with a value, with an
    exception, or never (it awaits a promise nobody resolves). *)
Inductive Outcome (A : Type) : Type :=
| Returned (a : A)
| Threw (e : Exn)
| Pending.
Arguments Returned {A} a.
Arguments Threw {A} e.
Arguments Pending {A}.

(** ** HTTP responses, as the adapters produce them *)

(** A response body: an HTML page, [JSON.stringify] of a value, or
    whatever the protected handler wrote. *)
Inductive Body : Type :=
| BodyHtml (html : string)
| BodyJson (value : Json)
| BodyOther (content : string).

Record Response : Type := {
  status : Z;
  headers : gmap string string;
  body : Body;
  headersSent : bool;
}.

(** The response of the application's own handler; its body is opaque
    to the middleware. *)
Record HandlerResponse : Type := {
  h_status : Z;
  h_headers : gmap string string;
  h_content : string;
  h_headersSent : bool;
}.

Definition response_of_handler (h : HandlerResponse) : Response :=
  {| status := h_status h; headers := h_headers h;
     body := BodyOther (h_content h); headersSent := h_headersSent h |}.

Definition set_header (k v : string) (r : Response) : Response :=
  {| status := status r; headers := <[k := v]> (headers r);
     body := body r; headersSent := headersSent r |}.

(** The function the [end] property of an Express response holds while
    the adapter handles a request: the one found there on entry
    ([originalEnd]), or the adapter's replacement. *)
Inductive EndFn : Type :=
| OriginalEnd
| PatchedEnd.

(** ** Facilitator, configuration and instances *)

Record VerifyResponse : Type := {
  isValid : bool;
  invalidReason : option string;
  v_payer : option string;
}.

Record SettleResponse : Type := {
  s_success : bool;
  s_transaction : option string;
  s_network : option string;
  s_payer : option string;
  s_errorReason : option string;
}.

(** [Settlement]: the fields are copied from the settler's answer as they
    are, so each holds whatever the settler put there. *)
Record Settlement : Type := {
  success : bool;
  transaction : option string;
  settled_network : option string;
  settled_payer : option string;
}.

(** The optional members of [RouteConfig.config]. *)
Record RouteMeta : Type := {
  m_resource : option Resource;
  m_description : option string;
  m_mimeType : option string;
  m_maxTimeoutSeconds : option Z;
  m_outputSchema : option Json;
  m_customPaywallHtml : option string;
}.

Record Asset : Type := {
  address : string;
  decimals : Z;
  eip712 : Json;
}.

(** Result of the price converter: [{maxAmountRequired, asset}] or
    [{error}]. *)
Inductive AtomicAmount : Type :=
| AtomicOk (maxAmount : string) (asset : Asset)
| AtomicError (error : string).

Section Types.
(** [TRequest] is the type parameter of the class; [W] is the state of
    the outside world (the facilitator service, the protected handler),
    which every asynchronous call may read and change. The remaining types
    are declared in ["../types"] and only passed around by the core. *)
Context {TRequest W Price PaymentPayload FacilitatorConfig PaywallConfig : Type}.

(** An asynchronous collaborator: it settles to a value or rejects. *)
Definition Async (A : Type) : Type := W -> (ErrorOrString + A) * W.

(** [ReturnType<typeof useFacilitator>], restricted to the two members
    used. *)
Record Facilitator : Type := {
  verify : PaymentPayload -> PaymentRequirements -> Async VerifyResponse;
  settle : PaymentPayload -> PaymentRequirements -> Async SettleResponse;
}.

(** [RouteConfig]. *)
Record RouteConfig : Type := {
  rc_price : Price;
  rc_network : string;
  rc_config : option RouteMeta;
}.

(** [PaymentMiddlewareConfig<TRequest>]. A synchronous callback that may
    throw returns a sum. *)
Record PaymentMiddlewareConfig : Type := {
  price : Price;
  c_network : string;
  config : option RouteMeta;
  c_payTo : string;
  facilitator : option FacilitatorConfig;
  paywall : option PaywallConfig;
  resourceFromRequest : option (TRequest -> Resource);
  canRenderPaywall : option (TRequest -> bool);
  paymentFromRequest : TRequest -> ErrorOrString + option PaymentPayload;
  processPriceToAtomicAmountFn : option (Price -> string -> AtomicAmount);
  verifyFn : option (PaymentPayload -> PaymentRequirements -> Async VerifyResponse);
  settleFn : option (PaymentPayload -> PaymentRequirements -> Async SettleResponse);
}.

(** The private and public fields of a [PaymentMiddleware]. *)
Record PaymentMiddleware : Type := {
  mw_config : RouteConfig;
  mw_facilitator : Facilitator;
  mw_paymentReq : PaymentReqTemplate;
  mw_resource : Resource + (TRequest -> Resource);
  mw_paymentFromRequest : TRequest -> ErrorOrString + option PaymentPayload;
  mw_canRenderPaywall : option (TRequest -> bool);
}.

(** [AcquiredPayment]. *)
Record AcquiredPayment : Type := new_AcquiredPayment {
  payload : PaymentPayload;
  selected : PaymentRequirements;
  requirements : list PaymentRequirements;
  ap_settle : PaymentPayload -> PaymentRequirements -> Async SettleResponse;
}.

(** What the protected handler does with a request: it responds, it
    throws, or it never finishes. *)
Inductive Downstream : Type :=
| Responded (r : HandlerResponse)
| Failed (e : ErrorOrString)
| NeverResponds.

(** The functions the sources import, and the application behind the
    middleware. *)
Class Collaborators : Type := {
  toJsonSafe : list PaymentRequirements -> Json;
  findMatchingPaymentRequirements :
    list PaymentRequirements -> PaymentPayload -> option PaymentRequirements;
  processPriceToAtomicAmount : Price -> string -> AtomicAmount;
  getAddress : string -> ErrorOrString + string;
  useFacilitator : option FacilitatorConfig -> Facilitator;
  settleResponseHeader : Settlement -> string;
  getPaywallHtml :
    RouteConfig -> option PaywallConfig -> TRequest -> Json -> string;
  handler : TRequest -> W -> Downstream * W;
  (** Express's [res.send] and [res.json]: the headers they set from the
      body ([Content-Type], [Content-Length], [ETag]) before they call
      [this.end]. *)
  send_headers : Body -> gmap string string -> gmap string string;
}.

(** ** Effects: calls on the outside world, exceptions, suspension *)

Inductive Event : Type :=
| EvVerify (p : PaymentPayload) (r : PaymentRequirements)
| EvSettle (p : PaymentPayload) (r : PaymentRequirements)
| EvHandler (request : TRequest)
| EvOriginalEnd (args : Body).

(** [res] is the framework's mutable response object ([c.res] in Hono,
    [res] in Express); [deferred] is the Express adapter's deferred
    promise, resolved with the arguments of the intercepted [res.end];
    [res_end] is the function that [res.end] holds. *)
Record State : Type := {
  world : W;
  trace : list Event;
  res : Response;
  deferred : option Body;
  res_end : EndFn;
}.

Definition M (A : Type) : Type := State -> Outcome A * State.

Definition ret {A : Type} (a : A) : M A := fun st => (Returned a, st).

Definition throw {A : Type} (e : Exn) : M A := fun st => (Threw e, st).

Definition bind {A B : Type} (c : M A) (k : A -> M B) : M B :=
  fun st =>
    match c st with
    | (Returned a, st') => k a st'
    | (Threw e, st') => (Threw e, st')
    | (Pending, st') => (Pending, st')
    end.

(** [try { c } catch (e) { h e }]; a suspended computation is not an
    exception and is not caught. *)
Definition try_catch {A : Type} (c : M A) (h : Exn -> M A) : M A :=
  fun st =>
    match c st with
    | (Threw e, st') => h e st'
    | other => other
    end.

(** [try { c } finally { f }], for an [f] that cannot throw; [f] does not
    run while [c] is suspended. *)
Definition try_finally {A : Type} (c : M A) (f : State -> State) : M A :=
  fun st =>
    match c st with
    | (Pending, st') => (Pending, st')
    | (out, st') => (out, f st')
    end.

Definition log (ev : Event) (st : State) : State :=
  {| world := world st; trace := trace st ++ [ev]; res := res st;
     deferred := deferred st; res_end := res_end st |}.

Definition set_world (w : W) (st : State) : State :=
  {| world := w; trace := trace st; res := res st; deferred := deferred st;
     res_end := res_end st |}.

Definition set_res (r : Response) (st : State) : State :=
  {| world := world st; trace := trace st; res := r; deferred := deferred st;
     res_end := res_end st |}.

Definition set_deferred (d : option Body) (st : State) : State :=
  {| world := world st; trace := trace st; res := res st; deferred := d;
     res_end := res_end st |}.

Definition set_res_end (f : EndFn) (st : State) : State :=
  {| world := world st; trace := trace st; res := res st;
     deferred := deferred st; res_end := f |}.

Definition modify (f : State -> State) : M unit := fun st => (Returned tt, f st).

Definition get_res : M Response := fun st => (Returned (res st), st).

(** [await f(...)]: the call is recorded, the world moves on, a rejection
    becomes an exception. *)
Definition await {A : Type} (ev : Event) (call : Async A) : M A :=
  fun st =>
    let '(out, w) := call (world st) in
    let st' := set_world w (log ev st) in
    match out with
    | inl e => (Threw (ExnForeign e), st')
    | inr a => (Returned a, st')
    end.

End Types.

Arguments Facilitator : clear implicits.
Arguments RouteConfig : clear implicits.
Arguments PaymentMiddlewareConfig : clear implicits.
Arguments PaymentMiddleware : clear implicits.
Arguments AcquiredPayment : clear implicits.
Arguments Collaborators : clear implicits.
Arguments Event : clear implicits.
Arguments State : clear implicits.
Arguments M : clear implicits.
Arguments Async : clear implicits.

(** ** The core: [middleware.ts] *)

Section Core.
Context {TRequest W Price PaymentPayload FacilitatorConfig PaywallConfig : Type}.
Context {collaborators :
  Collaborators TRequest W Price PaymentPayload FacilitatorConfig PaywallConfig}.

Local Abbreviation Config :=
  (PaymentMiddlewareConfig TRequest W Price PaymentPayload FacilitatorConfig PaywallConfig).
Local Abbreviation Middleware := (PaymentMiddleware TRequest W Price PaymentPayload).
Local Abbreviation Payment := (AcquiredPayment W PaymentPayload).
Local Abbreviation Eff := (M TRequest W PaymentPayload).

(** [config.config?.resource || config.resourceFromRequest]: an empty
    static resource is falsy and gives way to the function. *)
Definition resolve_resource (cfg : Config)
  : option (Resource + (TRequest -> Resource)) :=
  match config cfg ≫= m_resource with
  | Some r =>
      if truthy r then Some (inl r) else inr <$> resourceFromRequest cfg
  | None => inr <$> resourceFromRequest cfg
  end.

(** [config.processPriceToAtomicAmountFn || processPriceToAtomicAmount]. *)
Definition price_converter (cfg : Config) : Price -> string -> AtomicAmount :=
  match processPriceToAtomicAmountFn cfg with
  | Some f => f
  | None => processPriceToAtomicAmount
  end.

(** The facilitator of an instance: [useFacilitator(config.facilitator)]
    with [verifyFn] and [settleFn] swapped in when given. *)
Definition configured_facilitator (cfg : Config) : Facilitator W PaymentPayload :=
  let facilitator0 := useFacilitator (facilitator cfg) in
  let facilitator1 :=
    match verifyFn cfg with
    | Some f => {| verify := f; settle := settle facilitator0 |}
    | None => facilitator0
    end in
  match settleFn cfg with
  | Some f => {| verify := verify facilitator1; settle := f |}
  | None => facilitator1
  end.

(** [new PaymentMiddleware(config)]. *)
Definition new_PaymentMiddleware (cfg : Config)
  : ConstructionError + Middleware :=
  let facilitator := configured_facilitator cfg in
  match resolve_resource cfg with
  | None =>
      inl (PaymentMiddlewareConfigError
             "Either config.resource or resourceFromRequest must be provided")
  | Some resource =>
      match price_converter cfg (price cfg) (c_network cfg) with
      | AtomicError err => inl (PaymentMiddlewareConfigError err)
      | AtomicOk amount asset =>
          match getAddress (c_payTo cfg) with
          | inl e => inl (ForeignError e)
          | inr payTo =>
              match getAddress (address asset) with
              | inl e => inl (ForeignError e)
              | inr assetAddress =>
                  inr {|
                    mw_config :=
                      {| rc_price := price cfg; rc_network := c_network cfg;
                         rc_config := config cfg |};
                    mw_facilitator := facilitator;
                    mw_paymentReq :=
                      {| t_scheme := "exact";
                         t_network := c_network cfg;
                         t_maxAmountRequired := amount;
                         t_description :=
                           nullish (config cfg ≫= m_description) "";
                         t_mimeType :=
                           nullish (config cfg ≫= m_mimeType) "application/json";
                         t_payTo := payTo;
                         t_maxTimeoutSeconds :=
                           nullish (config cfg ≫= m_maxTimeoutSeconds) 300;
                         t_asset := assetAddress;
                         t_outputSchema := config cfg ≫= m_outputSchema;
                         t_extra := eip712 asset |};
                    mw_resource := resource;
                    mw_paymentFromRequest := paymentFromRequest cfg;
                    mw_canRenderPaywall := canRenderPaywall cfg |}
              end
          end
      end
  end.

(** [Object.assign({}, template, {resource})], read back as a record. *)
Definition with_resource (t : PaymentReqTemplate) (r : Resource)
  : PaymentRequirements :=
  {| scheme := t_scheme t; network := t_network t;
     maxAmountRequired := t_maxAmountRequired t; resource := r;
     description := t_description t; mimeType := t_mimeType t;
     payTo := t_payTo t; maxTimeoutSeconds := t_maxTimeoutSeconds t;
     asset := t_asset t; outputSchema := t_outputSchema t;
     extra := t_extra t |}.

(** The resource of a request: [typeof this.#resource === "function"]
    selects the call. *)
Definition resource_of (mw : Middleware) (request : TRequest) : Resource :=
  match mw_resource mw with
  | inr f => f request
  | inl r => r
  end.

(** [paymentRequirements(request)]. *)
Definition paymentRequirements (mw : Middleware) (request : TRequest)
  : list PaymentRequirements :=
  [ with_resource (mw_paymentReq mw) (resource_of mw request) ].

(** The value bound by [catch (e)], narrowed by [e as Error]. *)
Definition as_Error (e : Exn) : ErrorOrString :=
  match e with
  | ExnForeign v => v
  | ExnX402 x => ErrorObj "X402Error" (message x)
  end.

(** [acquirePayment(request, paymentRequirements)]. *)
Definition acquirePayment (mw : Middleware) (request : TRequest)
    (paymentRequirements : list PaymentRequirements) : Eff (option Payment) :=
  match mw_paymentFromRequest mw request with
  | inl error =>
      throw (ExnX402 (new_X402Error error paymentRequirements None))
  | inr None =>
      if match mw_canRenderPaywall mw with
         | Some f => f request
         | None => false
         end
      then ret None
      else throw (ExnX402 (new_X402Error (Str "X-PAYMENT header is required")
                             paymentRequirements None))
  | inr (Some paymentPayload) =>
      match findMatchingPaymentRequirements paymentRequirements paymentPayload with
      | None =>
          throw (ExnX402 (new_X402Error
                            (Str "Unable to find matching payment requirements")
                            paymentRequirements None))
      | Some selected =>
          bind (await (EvVerify paymentPayload selected)
                  (verify (mw_facilitator mw) paymentPayload selected))
            (fun verification =>
               if negb (isValid verification)
               then throw (ExnX402 (new_X402Error
                        (Str (nullish (invalidReason verification)
                                "Payment verification failed"))
                        paymentRequirements (v_payer verification)))
               else ret (Some (new_AcquiredPayment paymentPayload selected
                                 paymentRequirements
                                 (settle (mw_facilitator mw)))))
      end
  end.

(** [AcquiredPayment.settle()]. *)
Definition AcquiredPayment_settle (p : Payment) : Eff Settlement :=
  bind
    (try_catch
       (await (EvSettle (payload p) (selected p))
          (ap_settle p (payload p) (selected p)))
       (fun e =>
          throw (ExnX402 (new_X402Error (as_Error e) (requirements p) None))))
    (fun settlement =>
       if s_success settlement
       then ret {| success := true;
                   transaction := s_transaction settlement;
                   settled_network := s_network settlement;
                   settled_payer := s_payer settlement |}
       else throw (ExnX402 (new_X402Error
                    (Str ("Settlement failed: "
                          +:+ template (s_errorReason settlement)))
                    (requirements p) (s_payer settlement)))).

End Core.

(** ** The framework adapters *)

(** What a Next.js middleware returns: [NextResponse.next()], which lets
    routing continue and carries headers, or a response of its own. *)
Inductive NextResponse : Type :=
| NextContinue (hdrs : gmap string string)
| NextFinal (r : Response).

Section Adapters.
Context {TRequest W Price PaymentPayload FacilitatorConfig PaywallConfig : Type}.
Context {collaborators :
  Collaborators TRequest W Price PaymentPayload FacilitatorConfig PaywallConfig}.

Local Abbreviation Middleware := (PaymentMiddleware TRequest W Price PaymentPayload).
Local Abbreviation Payment := (AcquiredPayment W PaymentPayload).
Local Abbreviation Eff := (M TRequest W PaymentPayload).
Local Abbreviation St := (State TRequest W PaymentPayload).

(** [middlewares.match(path, method.toUpperCase())], as a function of the
    request, and the [paywall] argument of the adapter factory. *)
Variable middlewares : TRequest -> option Middleware.
Variable paywall : option PaywallConfig.

(** The arguments handed to [getPaywallHtml]: price and network of the
    route, branding, the request's URL, the JSON-safe requirements. *)
Definition default_paywall (mw : Middleware) (request : TRequest)
    (paymentRequirements : list PaymentRequirements) : string :=
  getPaywallHtml (mw_config mw) paywall request (toJsonSafe paymentRequirements).

Definition customPaywallHtml (mw : Middleware) : option string :=
  rc_config (mw_config mw) ≫= m_customPaywallHtml.

(** The protected handler runs: the call is recorded and the world moves
    on. *)
Definition run_handler (request : TRequest) (st : St) : Downstream * St :=
  let '(d, w) := handler request (world st) in
  (d, set_world w (log (EvHandler request) st)).

(** [new Response(JSON.stringify(e), {headers, status: 402})], with
    [Content-Type] set to ["application/json"] in [headers]. *)
Definition json_402 (hdrs : gmap string string) (x : X402Error) : Response :=
  {| status := 402; headers := <["Content-Type" := "application/json"]> hdrs;
     body := BodyJson (toJSON toJsonSafe x); headersSent := false |}.

(** [new NextResponse(html, {status: 402, headers: {"Content-Type":
    "text/html"}})]. *)
Definition html_402 (html : string) : Response :=
  {| status := 402; headers := {["Content-Type" := "text/html"]};
     body := BodyHtml html; headersSent := false |}.

(** Hono's [c.html(html, 402)]: a new response with Hono's content type
    for HTML. *)
Definition hono_html (html : string) : Response :=
  {| status := 402;
     headers := {["Content-Type" := "text/html; charset=UTF-8"]};
     body := BodyHtml html; headersSent := false |}.

(** *** Hono *)

(** [await next()]: the handler's response becomes [c.res]. *)
Definition hono_next (c : TRequest) : Eff unit :=
  fun st =>
    match run_handler c st with
    | (Responded r, st') => (Returned tt, set_res (response_of_handler r) st')
    | (Failed e, st') => (Threw (ExnForeign e), st')
    | (NeverResponds, st') => (Pending, st')
    end.

(** The handler returned by the Hono [paymentMiddleware]; it returns the
    response of [c.html] or nothing, leaving the answer in [c.res]. *)
Definition hono_paymentMiddleware (c : TRequest) : Eff (option Response) :=
  match middlewares c with
  | None => bind (hono_next c) (fun _ => ret None)
  | Some x402Middleware =>
      try_catch
        (let paymentRequirements := paymentRequirements x402Middleware c in
         bind (acquirePayment x402Middleware c paymentRequirements)
           (fun payment =>
              match payment with
              | None =>
                  let html :=
                    nullish (customPaywallHtml x402Middleware)
                      (default_paywall x402Middleware c paymentRequirements) in
                  ret (Some (hono_html html))
              | Some payment =>
                  bind (hono_next c) (fun _ =>
                  bind get_res (fun response =>
                  if 400 <=? status response then ret None
                  else
                    bind (AcquiredPayment_settle payment) (fun settlement =>
                    let responseHeader := settleResponseHeader settlement in
                    bind (modify (fun st =>
                            set_res (set_header "X-PAYMENT-RESPONSE"
                                       responseHeader (res st)) st))
                      (fun _ => ret None))))
              end))
        (fun e =>
           match e with
           | ExnX402 x =>
               bind (modify (fun st =>
                       set_res (json_402 (headers (res st)) x) st))
                 (fun _ => ret None)
           | _ => throw e
           end)
  end.

(** *** Express *)

(** [originalEnd(args)], called while the handler function runs: the
    response goes out with [args] as its body. *)
Definition original_end (args : Body) (st : St) : St :=
  log (EvOriginalEnd args)
    (set_res {| status := status (res st); headers := headers (res st);
                body := args; headersSent := true |} st).

(** [deferred.resolve(args)]: a promise is resolved once, and a later
    call changes nothing. *)
Definition deferred_resolve (args : Body) (st : St) : St :=
  match deferred st with
  | None => set_deferred (Some args) st
  | Some _ => st
  end.

(** [res.end(args)], through the property: the function found there is
    called. The adapter's replacement only resolves the deferred promise,
    so that nothing is written. *)
Definition res_end_call (args : Body) : Eff unit :=
  modify (fun st =>
    match res_end st with
    | OriginalEnd => original_end args st
    | PatchedEnd => deferred_resolve args st
    end).

(** [next()] while [res.end] is the original one: the handler finishes
    the response itself, and the call returns whether or not it does. *)
Definition express_next_unpatched (req : TRequest) : Eff unit :=
  fun st =>
    match run_handler req st with
    | (Responded r, st') =>
        (Returned tt,
         log (EvOriginalEnd (BodyOther (h_content r)))
           (set_res (response_of_handler r) st'))
    | (Failed e, st') => (Threw (ExnForeign e), st')
    | (NeverResponds, st') => (Returned tt, st')
    end.

(** [next()] while [res.end] is patched: the handler's call of [res.end]
    resolves the deferred promise with its arguments. *)
Definition express_next_patched (req : TRequest) : Eff unit :=
  fun st =>
    match run_handler req st with
    | (Responded r, st') =>
        (Returned tt,
         deferred_resolve (BodyOther (h_content r))
           (set_res (response_of_handler r) st'))
    | (Failed e, st') => (Threw (ExnForeign e), st')
    | (NeverResponds, st') => (Returned tt, st')
    end.

(** [await deferred.promise]. *)
Definition await_deferred : Eff unit :=
  fun st =>
    match deferred st with
    | Some _ => (Returned tt, st)
    | None => (Pending, st)
    end.

(** [res.status(code).send(html)] and [res.status(code).json(value)]:
    Express records the status and the headers it derives from the body,
    and hands the body to [this.end], whatever function that is. *)
Definition res_send (code : Z) (b : Body) : Eff unit :=
  bind (modify (fun st =>
          set_res {| status := code;
                     headers := send_headers b (headers (res st));
                     body := body (res st);
                     headersSent := headersSent (res st) |} st))
    (fun _ => res_end_call b).

(** [const originalEnd = res.end.bind(res); const deferred = defer()]:
    from here on the function found in [res.end] is [originalEnd], and
    the promise of this request is unresolved. *)
Definition express_enter (st : St) : St :=
  set_deferred None (set_res_end OriginalEnd st).

(** The [finally] clause: [res.end] is restored, and the callback given
    to [deferred.promise.then] calls [originalEnd] with the captured
    arguments once the promise is resolved. The callback runs after the
    clause: its call is recorded, and [res] stays the response object as
    the handler function leaves it. *)
Definition express_finally (st : St) : St :=
  match deferred st with
  | Some endArgs => log (EvOriginalEnd endArgs) (set_res_end OriginalEnd st)
  | None => set_res_end OriginalEnd st
  end.

(** The handler returned by the Express [paymentMiddleware]. *)
Definition express_paymentMiddleware (req : TRequest) : Eff unit :=
  match middlewares req with
  | None => express_next_unpatched req
  | Some x402Middleware =>
      bind (modify express_enter) (fun _ =>
      try_finally
        (try_catch
           (let paymentRequirements := paymentRequirements x402Middleware req in
            bind (acquirePayment x402Middleware req paymentRequirements)
              (fun payment =>
                 match payment with
                 | None =>
                     let html :=
                       match customPaywallHtml x402Middleware with
                       | Some h =>
                           if truthy h then h
                           else default_paywall x402Middleware req
                                  paymentRequirements
                       | None =>
                           default_paywall x402Middleware req paymentRequirements
                       end in
                     res_send 402 (BodyHtml html)
                 | Some payment =>
                     bind (modify (set_res_end PatchedEnd)) (fun _ =>
                     bind (express_next_patched req) (fun _ =>
                     bind await_deferred (fun _ =>
                     bind get_res (fun response =>
                     if 400 <=? status response then ret tt
                     else
                       bind (AcquiredPayment_settle payment) (fun settlement =>
                       let responseHeader := settleResponseHeader settlement in
                       modify (fun st =>
                         set_res (set_header "X-PAYMENT-RESPONSE"
                                    responseHeader (res st)) st))))))
                 end))
           (fun e =>
              match e with
              | ExnX402 x =>
                  bind get_res (fun response =>
                  if negb (headersSent response)
                  then res_send 402 (BodyJson (toJSON toJsonSafe x))
                  else ret tt)
              | _ => throw e
              end))
        express_finally)
  end.

(** *** Next.js *)

(** The handler returned by the Next.js [paymentMiddleware]. *)
Definition next_paymentMiddleware (request : TRequest) : Eff NextResponse :=
  match middlewares request with
  | None => ret (NextContinue ∅)
  | Some x402Middleware =>
      try_catch
        (let paymentRequirements := paymentRequirements x402Middleware request in
         bind (acquirePayment x402Middleware request paymentRequirements)
           (fun payment =>
              match payment with
              | None =>
                  let html :=
                    nullish (customPaywallHtml x402Middleware)
                      (default_paywall x402Middleware request
                         paymentRequirements) in
                  ret (NextFinal (html_402 html))
              | Some payment =>
                  bind (AcquiredPayment_settle payment) (fun settlement =>
                  let responseHeader := settleResponseHeader settlement in
                  ret (NextContinue {["X-PAYMENT-RESPONSE" := responseHeader]}))
              end))
        (fun e =>
           match e with
           | ExnX402 x => ret (NextFinal (json_402 ∅ x))
           | _ => throw e
           end)
  end.

(** [await handler(request)] in a route wrapped by [withPayment]. *)
Definition await_handler (request : TRequest) : Eff Response :=
  fun st =>
    match run_handler request st with
    | (Responded r, st') => (Returned (response_of_handler r), st')
    | (Failed e, st') => (Threw (ExnForeign e), st')
    | (NeverResponds, st') => (Pending, st')
    end.

(** The handler returned by [withPayment(handler, config)], for the
    instance [x402Middleware] that [withPayment] constructs from
    [config]. *)
Definition withPayment_middleware (x402Middleware : Middleware)
    (request : TRequest) : Eff Response :=
  try_catch
    (let paymentRequirements := paymentRequirements x402Middleware request in
     bind (acquirePayment x402Middleware request paymentRequirements)
       (fun payment =>
          match payment with
          | None =>
              let html :=
                nullish (customPaywallHtml x402Middleware)
                  (default_paywall x402Middleware request paymentRequirements) in
              ret (html_402 html)
          | Some payment =>
              bind (await_handler request) (fun response =>
              bind (AcquiredPayment_settle payment) (fun settlement =>
              let responseHeader := settleResponseHeader settlement in
              ret (set_header "X-PAYMENT-RESPONSE" responseHeader response)))
          end))
    (fun e =>
       match e with
       | ExnX402 x => ret (json_402 ∅ x)
       | _ => throw e
       end).

(** Next.js routing around the middleware: a response of the middleware
    is the answer; [NextResponse.next()] hands the request to the route,
    whose response receives the middleware's headers. *)
Definition next_route (request : TRequest) : Eff Response :=
  bind (next_paymentMiddleware request) (fun r =>
    match r with
    | NextFinal response => ret response
    | NextContinue hdrs =>
        bind (await_handler request) (fun response =>
        ret {| status := status response;
               headers := hdrs ∪ headers response;
               body := body response;
               headersSent := headersSent response |})
    end).

End Adapters.

(** ** Objects in the store: what [paymentRequirements] allocates *)

(** A JavaScript object is a finite map from property names to values;
    the store is the list of the objects allocated so far, and a
    reference is a position in it. *)
Definition alloc (o : gmap string Json) (h : list (gmap string Json))
  : nat * list (gmap string Json) :=
  (length h, h ++ [o]).

(** [Object.assign(target, ...sources)]: every own property of each
    source, in turn, is written into the target object; no other object
    changes. *)
Definition Object_assign (target : nat) (sources : list nat)
    (h : list (gmap string Json)) : list (gmap string Json) :=
  foldl (fun h source =>
           match h !! source, h !! target with
           | Some s, Some t => <[target := s ∪ t]> h
           | _, _ => h
           end) h sources.

(** The object literal the constructor stores in [#paymentReq]. *)
Definition template_object (t : PaymentReqTemplate) : gmap string Json :=
  <["scheme" := JStr (t_scheme t)]>
  (<["network" := JStr (t_network t)]>
  (<["maxAmountRequired" := JStr (t_maxAmountRequired t)]>
  (<["description" := JStr (t_description t)]>
  (<["mimeType" := JStr (t_mimeType t)]>
  (<["payTo" := JStr (t_payTo t)]>
  (<["maxTimeoutSeconds" := JNum (t_maxTimeoutSeconds t)]>
  (<["asset" := JStr (t_asset t)]>
  (<["outputSchema" := nullish (t_outputSchema t) JUndefined]>
  (<["extra" := t_extra t]> ∅))))))))).

(** A [PaymentRequirements] value as an object. *)
Definition requirements_object (r : PaymentRequirements) : gmap string Json :=
  <["scheme" := JStr (scheme r)]>
  (<["network" := JStr (network r)]>
  (<["maxAmountRequired" := JStr (maxAmountRequired r)]>
  (<["resource" := JStr (resource r)]>
  (<["description" := JStr (description r)]>
  (<["mimeType" := JStr (mimeType r)]>
  (<["payTo" := JStr (payTo r)]>
  (<["maxTimeoutSeconds" := JNum (maxTimeoutSeconds r)]>
  (<["asset" := JStr (asset r)]>
  (<["outputSchema" := nullish (outputSchema r) JUndefined]>
  (<["extra" := extra r]> ∅)))))))))).

Section Store.
Context {TRequest W Price PaymentPayload : Type}.

(** [paymentRequirements(request)] on the store: [paymentReq] is the
    reference held in [this.#paymentReq]. The call allocates [{}] and
    [{resource: resource}], assigns the template and the latter into the
    former, and returns a one-element array holding the new reference. *)
Definition paymentRequirements_store
    (mw : PaymentMiddleware TRequest W Price PaymentPayload)
    (paymentReq : nat) (request : TRequest) (h : list (gmap string Json))
  : list nat * list (gmap string Json) :=
  let resource := resource_of mw request in
  let '(target, h1) := alloc ∅ h in
  let '(update, h2) := alloc {["resource" := JStr resource]} h1 in
  ([target], Object_assign target [paymentReq; update] h2).

End Store.

(** ** A concrete application

    The fixtures of the repository's tests: one protected route priced
    [$0.001] on [base-sepolia], a facilitator that counts the settlements
    it executes, and a handler that answers 200 on [/weather] and 500 on
    [/broken]. *)

Module Demo.

Record Request : Type := {
  path : string;
  x_payment : option string;
  accept : string;
  user_agent : string;
}.

Record Payload : Type := {
  pp_scheme : string;
  pp_x402Version : Z;
  pp_network : string;
  pp_signature : string;
}.

Definition validPayment : Payload :=
  {| pp_scheme := "exact"; pp_x402Version := 1;
     pp_network := "base-sepolia"; pp_signature := "0x123" |}.

Definition usdc : Asset :=
  {| address := "0x036CbD53842c5426634e7929541eC2318f3dCF7e";
     decimals := 6;
     eip712 := JObj [("name", JStr "USDC"); ("version", JStr "2")] |}.

Definition requirement_json (r : PaymentRequirements) : Json :=
  JObj [ ("scheme", JStr (scheme r)); ("network", JStr (network r));
         ("maxAmountRequired", JStr (maxAmountRequired r));
         ("resource", JStr (resource r));
         ("description", JStr (description r));
         ("mimeType", JStr (mimeType r)); ("payTo", JStr (payTo r));
         ("maxTimeoutSeconds", JNum (maxTimeoutSeconds r));
         ("asset", JStr (asset r));
         ("outputSchema", nullish (outputSchema r) JUndefined);
         ("extra", extra r) ].

Definition decodePayment (req : Request) : ErrorOrString + option Payload :=
  match x_payment req with
  | None => inr None
  | Some h =>
      if bool_decide (h = "encoded-payment") then inr (Some validPayment)
      else inl (ErrorObj "Error" "Invalid payment")
  end.

Definition browser (req : Request) : bool :=
  bool_decide (accept req = "text/html")
  && bool_decide (user_agent req = "Mozilla/5.0").

Definition verify_ok : Payload -> PaymentRequirements -> Async nat VerifyResponse :=
  fun _ _ w =>
    (inr {| isValid := true; invalidReason := None; v_payer := Some "0xabc" |}, w).

Definition verify_invalid : Payload -> PaymentRequirements -> Async nat VerifyResponse :=
  fun _ _ w =>
    (inr {| isValid := false; invalidReason := Some "insufficient_funds";
            v_payer := Some "0xdef" |}, w).

Definition settle_ok : Payload -> PaymentRequirements -> Async nat SettleResponse :=
  fun _ r w =>
    (inr {| s_success := true; s_transaction := Some "0x123";
            s_network := Some (network r); s_payer := None;
            s_errorReason := None |}, S w).

Definition settle_refused : Payload -> PaymentRequirements -> Async nat SettleResponse :=
  fun _ r w =>
    (inr {| s_success := false; s_transaction := Some "0x123";
            s_network := Some (network r); s_payer := Some "0xabc";
            s_errorReason := Some "insufficient_funds" |}, w).

Definition settle_rejects : Payload -> PaymentRequirements -> Async nat SettleResponse :=
  fun _ _ w => (inl (ErrorObj "Error" "Settlement failed"), w).

#[local] Instance collaborators
  : Collaborators Request nat string Payload string unit := {|
  toJsonSafe := fun l => JArr (map requirement_json l);
  findMatchingPaymentRequirements := fun l p =>
    List.find (fun r => bool_decide (scheme r = pp_scheme p)
                        && bool_decide (network r = pp_network p)) l;
  processPriceToAtomicAmount := fun price _ =>
    if bool_decide (price = "$0.001") then AtomicOk "1000" usdc
    else AtomicError "Invalid price";
  getAddress := fun a =>
    if bool_decide (String.length a = 42%nat) then inr a
    else inl (ErrorObj "InvalidAddressError" a);
  useFacilitator := fun _ => {| verify := verify_ok; settle := settle_ok |};
  settleResponseHeader := fun s => nullish (transaction s) "";
  getPaywallHtml := fun _ _ _ _ => "<html>Paywall</html>";
  handler := fun req w =>
    (Responded {| h_status := if bool_decide (path req = "/broken")
                              then 500 else 200;
                  h_headers := ∅; h_content := path req;
                  h_headersSent := false |}, w);
  send_headers := fun b hdrs =>
    match b with
    | BodyJson _ => <["Content-Type" := "application/json; charset=utf-8"]> hdrs
    | _ => <["Content-Type" := "text/html; charset=utf-8"]> hdrs
    end;
|}.

Definition middlewareConfig : RouteMeta :=
  {| m_resource := Some "https://api.example.com/resource";
     m_description := Some "Test payment";
     m_mimeType := None;
     m_maxTimeoutSeconds := None;
     m_outputSchema := None;
     m_customPaywallHtml := None |}.

Definition weather_config
  : PaymentMiddlewareConfig Request nat string Payload string unit :=
  {| price := "$0.001"; c_network := "base-sepolia";
     config := Some middlewareConfig;
     c_payTo := "0x1234567890123456789012345678901234567890";
     facilitator := Some "https://facilitator.example.com";
     paywall := None;
     resourceFromRequest := None;
     canRenderPaywall := Some browser;
     paymentFromRequest := decodePayment;
     processPriceToAtomicAmountFn := None;
     verifyFn := None;
     settleFn := None |}.

(** The template the constructor computes for [weather_config]. *)
Definition template : PaymentReqTemplate :=
  {| t_scheme := "exact"; t_network := "base-sepolia";
     t_maxAmountRequired := "1000"; t_description := "Test payment";
     t_mimeType := "application/json";
     t_payTo := "0x1234567890123456789012345678901234567890";
     t_maxTimeoutSeconds := 300;
     t_asset := "0x036CbD53842c5426634e7929541eC2318f3dCF7e";
     t_outputSchema := None;
     t_extra := JObj [("name", JStr "USDC"); ("version", JStr "2")] |}.

(** The instance [new PaymentMiddleware(weather_config)] returns. *)
Definition middleware : PaymentMiddleware Request nat string Payload :=
  {| mw_config := {| rc_price := "$0.001"; rc_network := "base-sepolia";
                     rc_config := Some middlewareConfig |};
     mw_facilitator := {| verify := verify_ok; settle := settle_ok |};
     mw_paymentReq := template;
     mw_resource := inl "https://api.example.com/resource";
     mw_paymentFromRequest := decodePayment;
     mw_canRenderPaywall := Some browser |}.

(** The routes [/weather] and [/broken] are protected. *)
Definition middlewares (req : Request)
  : option (PaymentMiddleware Request nat string Payload) :=
  if bool_decide (path req = "/weather") || bool_decide (path req = "/broken")
  then Some middleware else None.

Definition paying (p : string) : Request :=
  {| path := p; x_payment := Some "encoded-payment";
     accept := "application/json"; user_agent := "curl" |}.

Definition anonymous (p : string) : Request :=
  {| path := p; x_payment := None;
     accept := "application/json"; user_agent := "curl" |}.

Definition visitor (p : string) : Request :=
  {| path := p; x_payment := None;
     accept := "text/html"; user_agent := "Mozilla/5.0" |}.

Definition blank : Response :=
  {| status := 200; headers := ∅; body := BodyOther ""; headersSent := false |}.

Definition start : State Request nat Payload :=
  {| world := 0%nat; trace := []; res := blank; deferred := None;
     res_end := OriginalEnd |}.

Definition accepted : list PaymentRequirements :=
  [ with_resource template "https://api.example.com/resource" ].

Definition payment (settler : Payload -> PaymentRequirements -> Async nat SettleResponse)
  : AcquiredPayment nat Payload :=
  new_AcquiredPayment validPayment
    (with_resource template "https://api.example.com/resource")
    accepted settler.

(** Variants of [weather_config] on which construction fails. *)
Definition config_without_resource
  : PaymentMiddlewareConfig Request nat string Payload string unit :=
  {| price := "$0.001"; c_network := "base-sepolia";
     config := None;
     c_payTo := "0x1234567890123456789012345678901234567890";
     facilitator := None; paywall := None;
     resourceFromRequest := None;
     canRenderPaywall := None;
     paymentFromRequest := decodePayment;
     processPriceToAtomicAmountFn := None;
     verifyFn := None; settleFn := None |}.

Definition config_with_failing_converter
  : PaymentMiddlewareConfig Request nat string Payload string unit :=
  {| price := "$0.001"; c_network := "base-sepolia";
     config := Some middlewareConfig;
     c_payTo := "0x1234567890123456789012345678901234567890";
     facilitator := None; paywall := None;
     resourceFromRequest := None;
     canRenderPaywall := None;
     paymentFromRequest := decodePayment;
     processPriceToAtomicAmountFn := Some (fun _ _ => AtomicError "Oops");
     verifyFn := None; settleFn := None |}.

Definition config_with_empty_resource
  : PaymentMiddlewareConfig Request nat string Payload string unit :=
  {| price := "$0.001"; c_network := "base-sepolia";
     config := Some {| m_resource := Some ""; m_description := None;
                       m_mimeType := None; m_maxTimeoutSeconds := None;
                       m_outputSchema := None; m_customPaywallHtml := None |};
     c_payTo := "0x1234567890123456789012345678901234567890";
     facilitator := None; paywall := None;
     resourceFromRequest := None;
     canRenderPaywall := None;
     paymentFromRequest := decodePayment;
     processPriceToAtomicAmountFn := None;
     verifyFn := None; settleFn := None |}.

(** [middleware] with a verifier that turns the payment down. *)
Definition strict_middleware : PaymentMiddleware Request nat string Payload :=
  {| mw_config := mw_config middleware;
     mw_facilitator := {| verify := verify_invalid; settle := settle_ok |};
     mw_paymentReq := template;
     mw_resource := inl "https://api.example.com/resource";
     mw_paymentFromRequest := decodePayment;
     mw_canRenderPaywall := Some browser |}.

End Demo.

(** ** Counting the calls made on the facilitator *)

Definition is_verify {TRequest PaymentPayload : Type}
    (ev : Event TRequest PaymentPayload) : bool :=
  match ev with EvVerify _ _ => true | _ => false end.

Definition is_settle {TRequest PaymentPayload : Type}
    (ev : Event TRequest PaymentPayload) : bool :=
  match ev with EvSettle _ _ => true | _ => false end.

Definition verify_calls {TRequest PaymentPayload : Type}
    (t : list (Event TRequest PaymentPayload)) : nat :=
  length (List.filter is_verify t).

Definition settle_calls {TRequest PaymentPayload : Type}
    (t : list (Event TRequest PaymentPayload)) : nat :=
  length (List.filter is_settle t).

Arguments verify_calls : simpl never.
Arguments settle_calls : simpl never.

Definition is_handler {TRequest PaymentPayload : Type}
    (ev : Event TRequest PaymentPayload) : bool :=
  match ev with EvHandler _ => true | _ => false end.

Definition is_end {TRequest PaymentPayload : Type}
    (ev : Event TRequest PaymentPayload) : bool :=
  match ev with EvOriginalEnd _ => true | _ => false end.

Definition handler_calls {TRequest PaymentPayload : Type}
    (t : list (Event TRequest PaymentPayload)) : nat :=
  length (List.filter is_handler t).

Definition end_calls {TRequest PaymentPayload : Type}
    (t : list (Event TRequest PaymentPayload)) : nat :=
  length (List.filter is_end t).

Arguments handler_calls : simpl never.
Arguments end_calls : simpl never.

(** ** Route maps: [MiddlewareRoutesMap] and [forRoutes] *)

(** A JavaScript [Map], as the list of its entries in insertion order.
    Keys are compared by [decide]: for object keys this stands for
    reference equality. *)
Section JsMap.
Context {K V : Type} `{EqDecision K}.

(** [map.set(k, v)]: an existing key keeps its place and takes the new
    value; a new key goes to the end. *)
Fixpoint Map_set (k : K) (v : V) (m : list (K * V)) : list (K * V) :=
  match m with
  | [] => [(k, v)]
  | (k', v') :: m' =>
      if decide (k' = k) then (k', v) :: m' else (k', v') :: Map_set k v m'
  end.

(** [new Map(entries)]. *)
Definition Map_new (entries : list (K * V)) : list (K * V) :=
  foldl (fun m e => Map_set (fst e) (snd e) m) [] entries.

(** [map.get(k)]. *)
Fixpoint Map_get (k : K) (m : list (K * V)) : option V :=
  match m with
  | [] => None
  | (k', v) :: m' => if decide (k' = k) then Some v else Map_get k m'
  end.

(** [Array.from(map.keys())]. *)
Definition Map_keys (m : list (K * V)) : list K := map fst m.

End JsMap.

(** [array.map(f)] for an [f] that may throw: the first exception ends
    the traversal. *)
Fixpoint Array_map {A B E : Type} (f : A -> E + B) (l : list A) : E + list B :=
  match l with
  | [] => inr []
  | a :: l' =>
      match f a with
      | inl e => inl e
      | inr b =>
          match Array_map f l' with
          | inl e => inl e
          | inr bs => inr (b :: bs)
          end
      end
  end.

Section Routes.
Context {TRequest W Price PaymentPayload FacilitatorConfig PaywallConfig : Type}.
Context {collaborators :
  Collaborators TRequest W Price PaymentPayload FacilitatorConfig PaywallConfig}.

(** [RoutePattern] and [RoutesConfig] are declared in ["../types"]; a
    route pattern is an object, compared by reference, whose [config]
    member is read by [rp_config]. [computeRoutePatterns] and
    [findMatchingRoute] are imported from ["../shared"]. *)
Context {RoutePattern RoutesConfig : Type} `{EqDecision RoutePattern}.
Variable rp_config : RoutePattern -> RouteConfig Price.
Variable computeRoutePatterns : RoutesConfig -> list RoutePattern.
Variable findMatchingRoute :
  list RoutePattern -> string -> string -> option RoutePattern.

Local Abbreviation Config :=
  (PaymentMiddlewareConfig TRequest W Price PaymentPayload FacilitatorConfig PaywallConfig).
Local Abbreviation Middleware := (PaymentMiddleware TRequest W Price PaymentPayload).

(** [MiddlewareRoutesMap]: the entries of the [Map] it extends and the
    private [#routePatterns]. *)
Record MiddlewareRoutesMap : Type := {
  mrm_entries : list (RoutePattern * Middleware);
  mrm_routePatterns : list RoutePattern;
}.

(** [new MiddlewareRoutesMap(entries)]. *)
Definition new_MiddlewareRoutesMap (entries : list (RoutePattern * Middleware))
  : MiddlewareRoutesMap :=
  {| mrm_entries := Map_new entries;
     mrm_routePatterns := Map_keys (Map_new entries) |}.

(** [match(path, method)]. *)
Definition MiddlewareRoutesMap_match (m : MiddlewareRoutesMap)
    (path method : string) : option Middleware :=
  match findMatchingRoute (mrm_routePatterns m) path method with
  | None => None
  | Some route => Map_get route (mrm_entries m)
  end.

(** The configuration [forRoutes] hands to the constructor for one route
    pattern. *)
Definition route_middleware_config (payTo : string)
    (paymentFromRequest : TRequest -> ErrorOrString + option PaymentPayload)
    (canRenderPaywall : option (TRequest -> bool))
    (facilitator : option FacilitatorConfig) (paywall : option PaywallConfig)
    (f : Facilitator W PaymentPayload) (routePattern : RoutePattern) : Config :=
  {| c_payTo := payTo;
     facilitator := facilitator;
     paywall := paywall;
     price := rc_price (rp_config routePattern);
     c_network := rc_network (rp_config routePattern);
     config := rc_config (rp_config routePattern);
     verifyFn := Some (verify f);
     settleFn := Some (settle f);
     paymentFromRequest := paymentFromRequest;
     canRenderPaywall := canRenderPaywall;
     resourceFromRequest := None;
     processPriceToAtomicAmountFn := None |}.

(** [PaymentMiddleware.forRoutes(...)]. *)
Definition forRoutes (payTo : string) (routes : RoutesConfig)
    (paymentFromRequest : TRequest -> ErrorOrString + option PaymentPayload)
    (canRenderPaywall : option (TRequest -> bool))
    (facilitator : option FacilitatorConfig) (paywall : option PaywallConfig)
    (useFacilitatorFn : option FacilitatorConfig -> Facilitator W PaymentPayload)
  : ConstructionError + MiddlewareRoutesMap :=
  let f := useFacilitatorFn facilitator in
  let routePatterns := computeRoutePatterns routes in
  match Array_map
          (fun routePattern =>
             match new_PaymentMiddleware
                     (route_middleware_config payTo paymentFromRequest
                        canRenderPaywall facilitator paywall f routePattern)
             with
             | inl e => inl e
             | inr mw => inr (routePattern, mw)
             end)
          routePatterns
  with
  | inl e => inl e
  | inr entries => inr (new_MiddlewareRoutesMap entries)
  end.

End Routes.

Arguments MiddlewareRoutesMap : clear implicits.

(** ** The adapters' request functions and factories *)

(** [s.includes(needle)]. *)
Fixpoint includes (needle s : string) : bool :=
  String.prefix needle s
  || match s with
     | EmptyString => false
     | String _ rest => includes needle rest
     end.

(** What the adapters read from a request: a header by name
    ([ctx.req.header], [req.header], [req.headers.get]), the path, the
    method, and the protocol and host of the URL. *)
Record HttpRequest : Type := {
  header : string -> option string;
  pathname : string;
  method : string;
  protocol : string;
  host : string;
}.

(** [value || ""] for a header value. *)
Definition or_empty (value : option string) : string :=
  match value with
  | Some s => if truthy s then s else ""
  | None => ""
  end.

Section HttpAdapters.
Context {W Price PaymentPayload FacilitatorConfig PaywallConfig : Type}.
Context {collaborators :
  Collaborators HttpRequest W Price PaymentPayload FacilitatorConfig PaywallConfig}.
Context {RoutePattern RoutesConfig : Type} `{EqDecision RoutePattern}.
Variable rp_config : RoutePattern -> RouteConfig Price.
Variable computeRoutePatterns : RoutesConfig -> list RoutePattern.
Variable findMatchingRoute :
  list RoutePattern -> string -> string -> option RoutePattern.

(** [exact.evm.decodePayment], imported from ["x402/schemes"], and the
    built-in [String.prototype.toUpperCase]. *)
Variable decodePayment : string -> ErrorOrString + PaymentPayload.
Variable toUpperCase : string -> string.

Local Abbreviation Middleware := (PaymentMiddleware HttpRequest W Price PaymentPayload).
Local Abbreviation Eff := (M HttpRequest W PaymentPayload).

(** [paymentFromRequest]: the payment header, read under [name], is
    decoded unless it is missing or empty. *)
Definition paymentFromRequest_under (name : string) (req : HttpRequest)
  : ErrorOrString + option PaymentPayload :=
  match header req name with
  | Some paymentHeader =>
      if negb (truthy paymentHeader) then inr None
      else match decodePayment paymentHeader with
           | inl e => inl e
           | inr p => inr (Some p)
           end
  | None => inr None
  end.

(** Hono reads ["X-Payment"], Express and Next.js ["X-PAYMENT"]. *)
Definition hono_paymentFromRequest : HttpRequest -> ErrorOrString + option PaymentPayload :=
  paymentFromRequest_under "X-Payment".

Definition express_paymentFromRequest : HttpRequest -> ErrorOrString + option PaymentPayload :=
  paymentFromRequest_under "X-PAYMENT".

Definition next_paymentFromRequest : HttpRequest -> ErrorOrString + option PaymentPayload :=
  paymentFromRequest_under "X-PAYMENT".

(** [canRenderPaywall], the same in the three adapters. *)
Definition http_canRenderPaywall (req : HttpRequest) : bool :=
  let userAgent := or_empty (header req "User-Agent") in
  let acceptHeader := or_empty (header req "Accept") in
  includes "text/html" acceptHeader && includes "Mozilla" userAgent.

(** [resourceFromRequest] of the Next.js adapter. *)
Definition next_resourceFromRequest (req : HttpRequest) : Resource :=
  protocol req +:+ "//" +:+ host req +:+ pathname req.

(** [middlewares.match(path, method.toUpperCase())]. *)
Definition route_of (middlewares : MiddlewareRoutesMap HttpRequest W Price PaymentPayload RoutePattern)
    (req : HttpRequest) : option Middleware :=
  MiddlewareRoutesMap_match findMatchingRoute middlewares
    (pathname req) (toUpperCase (method req)).

(** The three exported [paymentMiddleware] factories. *)
Definition hono_paymentMiddleware_factory (payTo : string) (routes : RoutesConfig)
    (facilitator : option FacilitatorConfig) (paywall : option PaywallConfig)
    (useFacilitatorFn : option FacilitatorConfig -> Facilitator W PaymentPayload)
  : ConstructionError + (HttpRequest -> Eff (option Response)) :=
  match forRoutes rp_config computeRoutePatterns payTo routes
          hono_paymentFromRequest (Some http_canRenderPaywall)
          facilitator paywall useFacilitatorFn with
  | inl e => inl e
  | inr middlewares =>
      inr (hono_paymentMiddleware (route_of middlewares) paywall)
  end.

Definition express_paymentMiddleware_factory (payTo : string) (routes : RoutesConfig)
    (facilitator : option FacilitatorConfig) (paywall : option PaywallConfig)
    (useFacilitatorFn : option FacilitatorConfig -> Facilitator W PaymentPayload)
  : ConstructionError + (HttpRequest -> Eff unit) :=
  match forRoutes rp_config computeRoutePatterns payTo routes
          express_paymentFromRequest (Some http_canRenderPaywall)
          facilitator paywall useFacilitatorFn with
  | inl e => inl e
  | inr middlewares =>
      inr (express_paymentMiddleware (route_of middlewares) paywall)
  end.

Definition next_paymentMiddleware_factory (payTo : string) (routes : RoutesConfig)
    (facilitator : option FacilitatorConfig) (paywall : option PaywallConfig)
    (useFacilitatorFn : option FacilitatorConfig -> Facilitator W PaymentPayload)
  : ConstructionError + (HttpRequest -> Eff NextResponse) :=
  match forRoutes rp_config computeRoutePatterns payTo routes
          next_paymentFromRequest (Some http_canRenderPaywall)
          facilitator paywall useFacilitatorFn with
  | inl e => inl e
  | inr middlewares =>
      inr (next_paymentMiddleware (route_of middlewares) paywall)
  end.

(** The configuration argument of [withPayment]:
    [RouteConfig & {payTo, facilitator?, paywall?}]. *)
Record WithPaymentConfig : Type := {
  wp_route : RouteConfig Price;
  wp_payTo : string;
  wp_facilitator : option FacilitatorConfig;
  wp_paywall : option PaywallConfig;
}.

(** The configuration [withPayment] hands to the constructor. *)
Definition withPayment_config (cfg : WithPaymentConfig)
  : PaymentMiddlewareConfig HttpRequest W Price PaymentPayload
      FacilitatorConfig PaywallConfig :=
  {| c_payTo := wp_payTo cfg;
     c_network := rc_network (wp_route cfg);
     price := rc_price (wp_route cfg);
     config := rc_config (wp_route cfg);
     facilitator := wp_facilitator cfg;
     paywall := wp_paywall cfg;
     paymentFromRequest := next_paymentFromRequest;
     canRenderPaywall := Some http_canRenderPaywall;
     resourceFromRequest := Some next_resourceFromRequest;
     processPriceToAtomicAmountFn := None;
     verifyFn := None;
     settleFn := None |}.

(** [withPayment(handler, config)]; the wrapped handler is the
    application's [handler]. *)
Definition withPayment (cfg : WithPaymentConfig)
  : ConstructionError + (HttpRequest -> Eff Response) :=
  match new_PaymentMiddleware (withPayment_config cfg) with
  | inl e => inl e
  | inr x402Middleware =>
      inr (withPayment_middleware (wp_paywall cfg) x402Middleware)
  end.

End HttpAdapters.

Arguments WithPaymentConfig : clear implicits.

(** A JSON body written for a request is a serialised protocol error
    under status 402 that lists the requirements [reqs]. *)
Definition protocol_body_for (toJsonSafe : list PaymentRequirements -> Json)
    (reqs : list PaymentRequirements) (r : Response) : Prop :=
  match body r with
  | BodyJson v =>
      status r = 402
      /\ exists x : X402Error, v = toJSON toJsonSafe x /\ accepts x = reqs
  | _ => True
  end.

(** ** A concrete application behind the exported factories

    Route patterns are referred to by number: pattern 0 protects
    [/weather] and declares its resource, pattern 1 protects [/bare] and
    declares none. *)

Module HttpDemo.

Definition weather_route : RouteConfig string :=
  {| rc_price := "$0.001"; rc_network := "base-sepolia";
     rc_config := Some Demo.middlewareConfig |}.

Definition bare_route : RouteConfig string :=
  {| rc_price := "$0.001"; rc_network := "base-sepolia"; rc_config := None |}.

Definition rp_config (routePattern : nat) : RouteConfig string :=
  match routePattern with O => weather_route | _ => bare_route end.

Definition rp_path (routePattern : nat) : string :=
  match routePattern with O => "/weather" | _ => "/bare" end.

Definition computeRoutePatterns (routes : list nat) : list nat := routes.

Definition findMatchingRoute (routePatterns : list nat) (path method : string)
  : option nat :=
  List.find (fun routePattern => bool_decide (rp_path routePattern = path))
    routePatterns.

Definition decodePayment (paymentHeader : string)
  : ErrorOrString + Demo.Payload :=
  if bool_decide (paymentHeader = "encoded-payment")
  then inr Demo.validPayment
  else inl (ErrorObj "Error" "Invalid payment").

(** Methods arrive in upper case in this application. *)
Definition toUpperCase (s : string) : string := s.

Definition facilitator_of (cfg : option string) : Facilitator nat Demo.Payload :=
  {| verify := Demo.verify_ok; settle := Demo.settle_ok |}.

#[local] Instance collaborators
  : Collaborators HttpRequest nat string Demo.Payload string unit := {|
  toJsonSafe := fun l => JArr (map Demo.requirement_json l);
  findMatchingPaymentRequirements := fun l p =>
    List.find (fun r => bool_decide (scheme r = Demo.pp_scheme p)
                        && bool_decide (network r = Demo.pp_network p)) l;
  processPriceToAtomicAmount := fun price _ =>
    if bool_decide (price = "$0.001") then AtomicOk "1000" Demo.usdc
    else AtomicError "Invalid price";
  getAddress := fun a =>
    if bool_decide (String.length a = 42%nat) then inr a
    else inl (ErrorObj "InvalidAddressError" a);
  useFacilitator := facilitator_of;
  settleResponseHeader := fun s => nullish (transaction s) "";
  getPaywallHtml := fun _ _ _ _ => "<html>Paywall</html>";
  handler := fun req w =>
    (Responded {| h_status := 200; h_headers := ∅;
                  h_content := pathname req; h_headersSent := false |}, w);
  send_headers := send_headers (Collaborators := Demo.collaborators);
|}.

Definition headers_of (entries : list (string * string)) (name : string)
  : option string :=
  snd <$> List.find (fun e => bool_decide (fst e = name)) entries.

Definition request (path : string) (entries : list (string * string))
  : HttpRequest :=
  {| header := headers_of entries; pathname := path; method := "GET";
     protocol := "https:"; host := "api.example.com" |}.

Definition payTo : string := "0x1234567890123456789012345678901234567890".

Definition blank : Response :=
  {| status := 200; headers := ∅; body := BodyOther ""; headersSent := false |}.

Definition start : State HttpRequest nat Demo.Payload :=
  {| world := 0%nat; trace := []; res := blank; deferred := None;
     res_end := OriginalEnd |}.

(** The middleware [forRoutes] constructs for pattern 0. *)
Definition weather_middleware
  : PaymentMiddleware HttpRequest nat string Demo.Payload :=
  {| mw_config := weather_route;
     mw_facilitator := {| verify := Demo.verify_ok; settle := Demo.settle_ok |};
     mw_paymentReq := Demo.template;
     mw_resource := inl "https://api.example.com/resource";
     mw_paymentFromRequest := hono_paymentFromRequest decodePayment;
     mw_canRenderPaywall := Some http_canRenderPaywall |}.

Definition weather_map
  : MiddlewareRoutesMap HttpRequest nat string Demo.Payload nat :=
  new_MiddlewareRoutesMap [(0%nat, weather_middleware)].

(** The argument of [withPayment] for a route without a static
    resource. *)
Definition bare_payment : WithPaymentConfig string string unit :=
  {| wp_route := bare_route; wp_payTo := payTo;
     wp_facilitator := None; wp_paywall := None |}.

(** The middleware [withPayment] constructs for [bare_payment]. *)
Definition bare_middleware
  : PaymentMiddleware HttpRequest nat string Demo.Payload :=
  {| mw_config := bare_route;
     mw_facilitator := {| verify := Demo.verify_ok; settle := Demo.settle_ok |};
     mw_paymentReq :=
       {| t_scheme := "exact"; t_network := "base-sepolia";
          t_maxAmountRequired := "1000"; t_description := "";
          t_mimeType := "application/json"; t_payTo := payTo;
          t_maxTimeoutSeconds := 300;
          t_asset := "0x036CbD53842c5426634e7929541eC2318f3dCF7e";
          t_outputSchema := None;
          t_extra := JObj [("name", JStr "USDC"); ("version", JStr "2")] |};
     mw_resource := inr next_resourceFromRequest;
     mw_paymentFromRequest := next_paymentFromRequest decodePayment;
     mw_canRenderPaywall := Some http_canRenderPaywall |}.

End HttpDemo.

(** Further variants of the first application: a verifier that cannot be
    reached, and a settler that refuses. *)

Module Demo2.

Definition verify_rejects
  : Demo.Payload -> PaymentRequirements -> Async nat VerifyResponse :=
  fun _ _ w => (inl (ErrorObj "Error" "facilitator unreachable"), w).

Definition unreachable_middleware
  : PaymentMiddleware Demo.Request nat string Demo.Payload :=
  {| mw_config := mw_config Demo.middleware;
     mw_facilitator := {| verify := verify_rejects; settle := Demo.settle_ok |};
     mw_paymentReq := Demo.template;
     mw_resource := inl "https://api.example.com/resource";
     mw_paymentFromRequest := Demo.decodePayment;
     mw_canRenderPaywall := Some Demo.browser |}.

Definition unsettled_middleware
  : PaymentMiddleware Demo.Request nat string Demo.Payload :=
  {| mw_config := mw_config Demo.middleware;
     mw_facilitator := {| verify := Demo.verify_ok;
                          settle := Demo.settle_refused |};
     mw_paymentReq := Demo.template;
     mw_resource := inl "https://api.example.com/resource";
     mw_paymentFromRequest := Demo.decodePayment;
     mw_canRenderPaywall := Some Demo.browser |}.

Definition unsettled_middlewares (req : Demo.Request)
  : option (PaymentMiddleware Demo.Request nat string Demo.Payload) :=
  Some unsettled_middleware.

(** The state after the verification of [Demo.validPayment], and after
    the handler has then answered. *)
Definition verified : State Demo.Request nat Demo.Payload :=
  {| world := 0%nat;
     trace := [EvVerify Demo.validPayment
                 (with_resource Demo.template
                    "https://api.example.com/resource")];
     res := Demo.blank; deferred := None;
     res_end := OriginalEnd |}.

Definition answered (request : Demo.Request)
  : State Demo.Request nat Demo.Payload :=
  {| world := 0%nat;
     trace := [EvVerify Demo.validPayment
                 (with_resource Demo.template
                    "https://api.example.com/resource");
               EvHandler request];
     res := Demo.blank; deferred := None;
     res_end := OriginalEnd |}.

Definition weather_response : HandlerResponse :=
  {| h_status := 200; h_headers := ∅; h_content := "/weather";
     h_headersSent := false |}.

Definition refusal : X402Error :=
  new_X402Error (Str "Settlement failed: insufficient_funds")
    Demo.accepted (Some "0xabc").

End Demo2.

(** * Properties *)

Section CoreProperties.
Context {TRequest W Price PaymentPayload FacilitatorConfig PaywallConfig : Type}.
Context {collaborators :
  Collaborators TRequest W Price PaymentPayload FacilitatorConfig PaywallConfig}.

Local Abbreviation Config :=
  (PaymentMiddlewareConfig TRequest W Price PaymentPayload FacilitatorConfig PaywallConfig).
Local Abbreviation Middleware := (PaymentMiddleware TRequest W Price PaymentPayload).
Local Abbreviation Payment := (AcquiredPayment W PaymentPayload).
Local Abbreviation St := (State TRequest W PaymentPayload).

(** *** Settlement *)

Lemma settle_calls_app (t u : list (Event TRequest PaymentPayload)) :
  settle_calls (t ++ u) = (settle_calls t + settle_calls u)%nat.
Proof. unfold settle_calls. by rewrite List.filter_app, length_app. Qed.

Lemma verify_calls_app (t u : list (Event TRequest PaymentPayload)) :
  verify_calls (t ++ u) = (verify_calls t + verify_calls u)%nat.
Proof. unfold verify_calls. by rewrite List.filter_app, length_app. Qed.

Lemma settle_calls_snoc (t : list (Event TRequest PaymentPayload))
    (ev : Event TRequest PaymentPayload) :
  settle_calls (t ++ [ev])
  = (settle_calls t + (if is_settle ev then 1 else 0))%nat.
Proof. rewrite settle_calls_app. unfold settle_calls; cbn. by destruct (is_settle ev). Qed.

(** [settle()] calls the settler once, whatever the answer. *)
Lemma settle_state (p : Payment) (st : St) :
  snd (AcquiredPayment_settle p st)
  = set_world (snd (ap_settle p (payload p) (selected p) (world st)))
      (log (EvSettle (payload p) (selected p)) st).
Proof.
  unfold AcquiredPayment_settle, bind, try_catch, await, throw, ret.
  destruct (ap_settle p (payload p) (selected p) (world st)) as [[e | resp] w];
    cbn; [done |].
  by destruct (s_success resp).
Qed.

(** C3. When the settler rejects with [e], [settle()] throws the
    [X402Error] built from [e], the full requirement list and no payer;
    when the settler answers [success: false] with [errorReason] [r],
    [settle()] throws an [X402Error] whose message is
    ["Settlement failed: " + r], carrying the requirement list and the
    payer the settler reported. *)
Theorem settle_failure_raises_X402Error (p : Payment) (st : St) :
  (forall e w',
     ap_settle p (payload p) (selected p) (world st) = (inl e, w') ->
     fst (AcquiredPayment_settle p st)
     = Threw (ExnX402 (new_X402Error e (requirements p) None)))
  /\ (forall resp w' r,
        ap_settle p (payload p) (selected p) (world st) = (inr resp, w') ->
        s_success resp = false ->
        s_errorReason resp = Some r ->
        exists x,
          fst (AcquiredPayment_settle p st) = Threw (ExnX402 x)
          /\ message x = "Settlement failed: " +:+ r
          /\ error x = Str ("Settlement failed: " +:+ r)
          /\ accepts x = requirements p
          /\ payer x = s_payer resp).
Proof.
  split.
  - intros e w' Hcall.
    unfold AcquiredPayment_settle, bind, try_catch, await, throw.
    by rewrite Hcall.
  - intros resp w' r Hcall Hfail Hreason.
    eexists. split.
    + unfold AcquiredPayment_settle, bind, try_catch, await, throw.
      rewrite Hcall; cbn. rewrite Hfail. reflexivity.
    + rewrite Hreason. by cbn.
Qed.

(** C4. When the settler answers [success: true], [settle()] returns
    [{success: true, transaction, network, payer}] with the three values
    exactly as the settler gave them; a missing payer included: no case
    of the success branch throws. *)
Theorem settle_success_returns_settlement (p : Payment) (st : St)
    (resp : SettleResponse) (w' : W) :
  ap_settle p (payload p) (selected p) (world st) = (inr resp, w') ->
  s_success resp = true ->
  AcquiredPayment_settle p st
  = (Returned {| success := true;
                 transaction := s_transaction resp;
                 settled_network := s_network resp;
                 settled_payer := s_payer resp |},
     set_world w' (log (EvSettle (payload p) (selected p)) st)).
Proof.
  intros Hcall Hok.
  unfold AcquiredPayment_settle, bind, try_catch, await, ret.
  rewrite Hcall; cbn. by rewrite Hok.
Qed.

(** *** Acquisition *)

(** C5. With a payload that matches the requirement [sel], a verifier
    answer with [isValid = false] makes [acquirePayment] throw an
    [X402Error] whose message is [invalidReason], or
    ["Payment verification failed"] when there is none, carrying the full
    requirement list and the payer the verifier reported, if any. *)
Theorem acquirePayment_invalid_verification (mw : Middleware)
    (request : TRequest) (reqs : list PaymentRequirements) (st : St)
    (paymentPayload : PaymentPayload) (sel : PaymentRequirements)
    (v : VerifyResponse) (w' : W) :
  mw_paymentFromRequest mw request = inr (Some paymentPayload) ->
  findMatchingPaymentRequirements reqs paymentPayload = Some sel ->
  verify (mw_facilitator mw) paymentPayload sel (world st) = (inr v, w') ->
  isValid v = false ->
  exists x,
    fst (acquirePayment mw request reqs st) = Threw (ExnX402 x)
    /\ message x = nullish (invalidReason v) "Payment verification failed"
    /\ accepts x = reqs
    /\ payer x = v_payer v.
Proof.
  intros Hpayload Hmatch Hverify Hinvalid.
  eexists. split.
  - unfold acquirePayment, bind, await, throw.
    rewrite Hpayload, Hmatch, Hverify; cbn. rewrite Hinvalid; cbn.
    reflexivity.
  - by cbn.
Qed.

(** C6. With no payload in the request: when the paywall predicate
    answers [true], [acquirePayment] returns [undefined] and throws
    nothing; in every other case it throws an [X402Error] with message
    ["X-PAYMENT header is required"] and the full requirement list. *)
Theorem acquirePayment_no_payload (mw : Middleware) (request : TRequest)
    (reqs : list PaymentRequirements) (st : St) :
  mw_paymentFromRequest mw request = inr None ->
  ((exists f, mw_canRenderPaywall mw = Some f /\ f request = true) ->
   acquirePayment mw request reqs st = (Returned None, st))
  /\ (~ (exists f, mw_canRenderPaywall mw = Some f /\ f request = true) ->
      exists x,
        acquirePayment mw request reqs st = (Threw (ExnX402 x), st)
        /\ message x = "X-PAYMENT header is required"
        /\ accepts x = reqs
        /\ payer x = None).
Proof.
  intros Hnone. unfold acquirePayment. rewrite Hnone. split.
  - intros (f & Hf & Htrue). by rewrite Hf, Htrue.
  - intros Hno.
    destruct (mw_canRenderPaywall mw) as [f |] eqn:Hf.
    + destruct (f request) eqn:Hreq.
      * exfalso. apply Hno. by exists f.
      * by eexists.
    + by eexists.
Qed.

(** C7. With a payload that the matcher pairs with no requirement,
    [acquirePayment] throws an [X402Error] with message
    ["Unable to find matching payment requirements"] and the full
    requirement list; the state is the one it started from, so the
    verifier has not been called. *)
Theorem acquirePayment_no_match (mw : Middleware) (request : TRequest)
    (reqs : list PaymentRequirements) (st : St)
    (paymentPayload : PaymentPayload) :
  mw_paymentFromRequest mw request = inr (Some paymentPayload) ->
  findMatchingPaymentRequirements reqs paymentPayload = None ->
  exists x st',
    acquirePayment mw request reqs st = (Threw (ExnX402 x), st')
    /\ message x = "Unable to find matching payment requirements"
    /\ accepts x = reqs
    /\ payer x = None
    /\ st' = st
    /\ verify_calls (trace st') = verify_calls (trace st).
Proof.
  intros Hpayload Hnomatch.
  unfold acquirePayment. rewrite Hpayload, Hnomatch.
  by eexists _, _.
Qed.

(** *** Construction *)

(** Nothing is left to resolve exactly when [config.resource] is missing
    or the empty string, which is falsy for [||], and no
    [resourceFromRequest] is given. *)
Lemma resolve_resource_None (cfg : Config) :
  resolve_resource cfg = None
  <-> (config cfg ≫= m_resource = None \/ config cfg ≫= m_resource = Some "")
      /\ resourceFromRequest cfg = None.
Proof.
  unfold resolve_resource, truthy.
  destruct (config cfg ≫= m_resource) as [r |] eqn:Hr.
  - destruct (decide (r = "")) as [-> | Hne].
    + rewrite bool_decide_eq_true_2 by done. cbn.
      destruct (resourceFromRequest cfg); cbn; split; try done;
        [by intros [_ ?] | by intros _; split; [right |]].
    + rewrite bool_decide_eq_false_2 by done. cbn.
      split; [done |]. intros [[? | [= ?]] _]; done.
  - destruct (resourceFromRequest cfg); cbn; split; try done;
      [by intros [_ ?] | by intros _; split; [left |]].
Qed.

(** C8, as amended. Construction throws a [PaymentMiddlewareConfigError]
    with message [m] exactly when (a) [config.resource] is missing or is
    the empty string, no [resourceFromRequest] is supplied, and [m] is
    ["Either config.resource or resourceFromRequest must be provided"],
    or (b) a resource is found and the price converter returns
    [{error: m}]. The constructor is a function of the configuration
    alone: the error is its direct result. *)
Theorem constructor_ConfigError_iff (cfg : Config) (m : string) :
  new_PaymentMiddleware cfg = inl (PaymentMiddlewareConfigError m)
  <-> ((config cfg ≫= m_resource = None
        \/ config cfg ≫= m_resource = Some "")
       /\ resourceFromRequest cfg = None
       /\ m = "Either config.resource or resourceFromRequest must be provided")
      \/ (~ ((config cfg ≫= m_resource = None
              \/ config cfg ≫= m_resource = Some "")
             /\ resourceFromRequest cfg = None)
          /\ price_converter cfg (price cfg) (c_network cfg) = AtomicError m).
Proof.
  pose proof (resolve_resource_None cfg) as Hres.
  unfold new_PaymentMiddleware.
  destruct (resolve_resource cfg) as [r |] eqn:Hr.
  - assert (Hsome : ~ ((config cfg ≫= m_resource = None
                        \/ config cfg ≫= m_resource = Some "")
                       /\ resourceFromRequest cfg = None)).
    { intros Habs. apply Hres in Habs. discriminate. }
    destruct (price_converter cfg (price cfg) (c_network cfg))
      as [amount asset | err] eqn:Hconv.
    + split.
      * destruct (getAddress (c_payTo cfg)); [discriminate |].
        destruct (getAddress (address asset)); discriminate.
      * intros [(Ha & Hb & _) | [_ Hc]]; [by destruct Hsome | discriminate].
    + split.
      * intros [= ->]. by right.
      * intros [(Ha & Hb & _) | [_ [= ->]]]; [by destruct Hsome | done].
  - assert (Hnone : (config cfg ≫= m_resource = None
                     \/ config cfg ≫= m_resource = Some "")
                    /\ resourceFromRequest cfg = None) by by apply Hres.
    split.
    + intros [= <-]. left. by destruct Hnone.
    + intros [(_ & _ & ->) | [Hc _]]; [done | by destruct Hc].
Qed.


End CoreProperties.

(** *** Requirements per request *)

Section StoreProperties.
Context {TRequest W Price PaymentPayload : Type}.

Local Abbreviation Middleware := (PaymentMiddleware TRequest W Price PaymentPayload).

(** The object of a completed requirement is the template's object with
    [resource] written into it. *)
Lemma requirements_object_with_resource (t : PaymentReqTemplate) (r : Resource) :
  requirements_object (with_resource t r)
  = <["resource" := JStr r]> (template_object t).
Proof.
  unfold requirements_object, template_object, with_resource; cbn.
  rewrite (insert_insert_ne _ "maxAmountRequired" "resource") by done.
  rewrite (insert_insert_ne _ "network" "resource") by done.
  by rewrite (insert_insert_ne _ "scheme" "resource") by done.
Qed.

Lemma template_object_no_resource (t : PaymentReqTemplate) :
  template_object t !! "resource" = None.
Proof. unfold template_object. by rewrite !lookup_insert_ne by done. Qed.

Lemma Object_assign_length (target : nat) (sources : list nat)
    (h : list (gmap string Json)) :
  length (Object_assign target sources h) = length h.
Proof.
  unfold Object_assign. revert h.
  induction sources as [| s sources IH]; intros h; cbn; [done |].
  rewrite IH. destruct (h !! s), (h !! target); try done.
  by rewrite length_insert.
Qed.

(** [Object.assign] writes to its target only. *)
Lemma Object_assign_frame (target : nat) (sources : list nat)
    (h : list (gmap string Json)) (i : nat) :
  i <> target -> Object_assign target sources h !! i = h !! i.
Proof.
  intros Hne. unfold Object_assign. revert h.
  induction sources as [| s sources IH]; intros h; cbn; [done |].
  rewrite IH. destruct (h !! s), (h !! target); try done.
  by rewrite list_lookup_insert_ne.
Qed.

(** What the call leaves in the store. *)
Lemma paymentRequirements_store_result (mw : Middleware) (l : nat)
    (request : TRequest) (h : list (gmap string Json)) (o : gmap string Json) :
  h !! l = Some o ->
  paymentRequirements_store mw l request h
  = ([length h],
     <[length h := <["resource" := JStr (resource_of mw request)]> o]>
       (h ++ [∅; {["resource" := JStr (resource_of mw request)]}])).
Proof.
  intros Hl. pose proof (lookup_lt_Some _ _ _ Hl) as Hlt.
  unfold paymentRequirements_store, alloc, Object_assign; cbn.
  rewrite length_app; cbn.
  rewrite <- (assoc_L (++)); cbn.
  set (u := {["resource" := JStr (resource_of mw request)]} : gmap string Json).
  assert (Hl2 : (h ++ [∅; u]) !! l = Some o) by by rewrite lookup_app_l.
  assert (Ht : (h ++ [∅; u]) !! length h = Some (∅ : gmap string Json)).
  { rewrite lookup_app_r by lia. by rewrite Nat.sub_diag. }
  rewrite Hl2, Ht.
  rewrite list_lookup_insert_ne by lia.
  rewrite list_lookup_insert_eq by (rewrite length_app; cbn; lia).
  replace ((h ++ [∅; u]) !! (length h + 1)%nat) with (Some u).
  2:{ rewrite lookup_app_r by lia.
      by replace (length h + 1 - length h)%nat with 1%nat by lia. }
  rewrite list_insert_insert_eq.
  f_equal. f_equal. subst u.
  by rewrite (right_id_L ∅ (∪)), <- insert_union_singleton_l.
Qed.

(** C10. [paymentRequirements(request)] returns a list of exactly one
    requirement. Each of its fields other than [resource] is the
    template's, and [resource] is the one resolved for the request. On
    the store, the call returns one fresh reference; the object behind
    it agrees with the template object on every property but
    [resource]; every object that existed before the call, the template
    included, is unchanged; and two requests yield objects that differ
    in [resource] at most. *)
Theorem paymentRequirements_frame (mw : Middleware) (request : TRequest)
    (l : nat) (h : list (gmap string Json)) :
  h !! l = Some (template_object (mw_paymentReq mw)) ->
  (exists r,
     paymentRequirements mw request = [r]
     /\ resource r = resource_of mw request
     /\ scheme r = t_scheme (mw_paymentReq mw)
     /\ network r = t_network (mw_paymentReq mw)
     /\ maxAmountRequired r = t_maxAmountRequired (mw_paymentReq mw)
     /\ description r = t_description (mw_paymentReq mw)
     /\ mimeType r = t_mimeType (mw_paymentReq mw)
     /\ payTo r = t_payTo (mw_paymentReq mw)
     /\ maxTimeoutSeconds r = t_maxTimeoutSeconds (mw_paymentReq mw)
     /\ asset r = t_asset (mw_paymentReq mw)
     /\ outputSchema r = t_outputSchema (mw_paymentReq mw)
     /\ extra r = t_extra (mw_paymentReq mw)
     /\ exists l' h' o,
          paymentRequirements_store mw l request h = ([l'], h')
          /\ h !! l' = None
          /\ h' !! l' = Some o
          /\ o = requirements_object r
          /\ (forall k, k <> "resource" ->
                o !! k = template_object (mw_paymentReq mw) !! k)
          /\ (forall i, (i < length h)%nat -> h' !! i = h !! i)
          /\ h' !! l = Some (template_object (mw_paymentReq mw))
          /\ forall request' l'' h'' o',
               paymentRequirements_store mw l request' h = ([l''], h'') ->
               h'' !! l'' = Some o' ->
               forall k, k <> "resource" -> o' !! k = o !! k).
Proof.
  intros Hl. pose proof (lookup_lt_Some _ _ _ Hl) as Hlt.
  eexists. split; [reflexivity |].
  repeat (split; [reflexivity |]).
  rewrite (paymentRequirements_store_result mw l request h _ Hl).
  eexists _, _, _. split; [reflexivity |].
  assert (Hread : forall rq,
    <[length h := <["resource" := JStr (resource_of mw rq)]>
                    (template_object (mw_paymentReq mw))]>
      (h ++ [∅; {["resource" := JStr (resource_of mw rq)]}]) !! length h
    = Some (<["resource" := JStr (resource_of mw rq)]>
              (template_object (mw_paymentReq mw)))).
  { intros rq. apply list_lookup_insert_eq. rewrite length_app; cbn; lia. }
  split; [by apply lookup_ge_None_2 |].
  split; [apply Hread |].
  split; [by rewrite requirements_object_with_resource |].
  split; [intros k Hk; by rewrite lookup_insert_ne |].
  split.
  { intros i Hi. rewrite list_lookup_insert_ne by lia. by rewrite lookup_app_l. }
  split.
  { rewrite list_lookup_insert_ne by lia. by rewrite lookup_app_l. }
  intros request' l'' h'' o' Hrun Hlook k Hk.
  rewrite (paymentRequirements_store_result mw l request' h _ Hl) in Hrun.
  injection Hrun as <- <-.
  rewrite Hread in Hlook. injection Hlook as <-.
  by rewrite !lookup_insert_ne.
Qed.

End StoreProperties.

(** *** The adapters *)

Section AdapterProperties.
Context {TRequest W Price PaymentPayload FacilitatorConfig PaywallConfig : Type}.
Context {collaborators :
  Collaborators TRequest W Price PaymentPayload FacilitatorConfig PaywallConfig}.

Local Abbreviation Middleware := (PaymentMiddleware TRequest W Price PaymentPayload).
Local Abbreviation Payment := (AcquiredPayment W PaymentPayload).
Local Abbreviation St := (State TRequest W PaymentPayload).

Variable middlewares : TRequest -> option Middleware.
Variable paywall : option PaywallConfig.

(** [acquirePayment] calls the verifier at most, and leaves the response
    object alone. *)
Lemma acquirePayment_state (mw : Middleware) (request : TRequest)
    (reqs : list PaymentRequirements) (st : St) :
  settle_calls (trace (snd (acquirePayment mw request reqs st)))
  = settle_calls (trace st)
  /\ res (snd (acquirePayment mw request reqs st)) = res st
  /\ deferred (snd (acquirePayment mw request reqs st)) = deferred st.
Proof.
  unfold acquirePayment, bind, await, throw, ret.
  destruct (mw_paymentFromRequest mw request) as [e | [p |]]; cbn; [done | |].
  - destruct (findMatchingPaymentRequirements reqs p) as [sel |]; cbn; [| done].
    destruct (verify (mw_facilitator mw) p sel (world st)) as [[e | v] w]; cbn.
    + rewrite settle_calls_snoc. by split.
    + destruct (isValid v); cbn; rewrite settle_calls_snoc; by split.
  - by destruct (match mw_canRenderPaywall mw with
                 | Some f => f request | None => false end).
Qed.

Lemma run_handler_state (request : TRequest) (st : St) :
  trace (snd (run_handler request st)) = trace st ++ [EvHandler request]
  /\ res (snd (run_handler request st)) = res st
  /\ deferred (snd (run_handler request st)) = deferred st.
Proof. unfold run_handler. by destruct (handler request (world st)). Qed.

(** [acquirePayment], the handler and [settle()] read the world and add
    to the trace: the response object, [res.end] and the deferred promise
    are out of their reach. *)
Lemma acquirePayment_frame (mw : Middleware) (request : TRequest)
    (reqs : list PaymentRequirements) (st : St) (r : Response)
    (d : option Body) (f : EndFn) :
  acquirePayment mw request reqs
    {| world := world st; trace := trace st; res := r; deferred := d;
       res_end := f |}
  = (fst (acquirePayment mw request reqs st),
     {| world := world (snd (acquirePayment mw request reqs st));
        trace := trace (snd (acquirePayment mw request reqs st));
        res := r; deferred := d; res_end := f |}).
Proof.
  unfold acquirePayment, bind, await, throw, ret.
  destruct (mw_paymentFromRequest mw request) as [e | [p |]]; cbn; [done | |].
  - destruct (findMatchingPaymentRequirements reqs p) as [sel |]; cbn; [| done].
    destruct (verify (mw_facilitator mw) p sel (world st)) as [[e | v] w];
      cbn; [done |].
    by destruct (isValid v).
  - by destruct (match mw_canRenderPaywall mw with
                 | Some f => f request | None => false end).
Qed.

Lemma run_handler_frame (request : TRequest) (st : St) (r : Response)
    (d : option Body) (f : EndFn) :
  run_handler request
    {| world := world st; trace := trace st; res := r; deferred := d;
       res_end := f |}
  = (fst (run_handler request st),
     {| world := world (snd (run_handler request st));
        trace := trace (snd (run_handler request st));
        res := r; deferred := d; res_end := f |}).
Proof. unfold run_handler; cbn. by destruct (handler request (world st)). Qed.

Lemma settle_frame (p : Payment) (st : St) (r : Response)
    (d : option Body) (f : EndFn) :
  AcquiredPayment_settle p
    {| world := world st; trace := trace st; res := r; deferred := d;
       res_end := f |}
  = (fst (AcquiredPayment_settle p st),
     {| world := world (snd (AcquiredPayment_settle p st));
        trace := trace (snd (AcquiredPayment_settle p st));
        res := r; deferred := d; res_end := f |}).
Proof.
  unfold AcquiredPayment_settle, bind, try_catch, await, throw, ret; cbn.
  destruct (ap_settle p (payload p) (selected p) (world st)) as [[e | resp] w];
    cbn; [done |].
  by destruct (s_success resp).
Qed.

(** Hono: once the payment is acquired, a handler response with status
    400 or more ends the middleware without a call of the settler. *)
Lemma hono_no_settle_on_error_status (c : TRequest) (st st1 st2 : St)
    (mw : Middleware) (payment : Payment) (r : HandlerResponse) :
  middlewares c = Some mw ->
  acquirePayment mw c (paymentRequirements mw c) st
  = (Returned (Some payment), st1) ->
  run_handler c st1 = (Responded r, st2) ->
  400 <= h_status r ->
  fst (hono_paymentMiddleware middlewares paywall c st) = Returned None
  /\ settle_calls (trace (snd (hono_paymentMiddleware middlewares paywall c st)))
     = settle_calls (trace st).
Proof.
  intros Hroute Hacq Hrun Hstatus.
  pose proof (acquirePayment_state mw c (paymentRequirements mw c) st) as (Ha & _).
  pose proof (run_handler_state c st1) as (Hb & _).
  rewrite Hacq in Ha. rewrite Hrun in Hb. cbn in Ha, Hb.
  unfold hono_paymentMiddleware. rewrite Hroute.
  unfold try_catch, bind. rewrite Hacq.
  unfold hono_next. rewrite Hrun. cbn.
  replace (400 <=? h_status r) with true by (symmetry; by apply Z.leb_le).
  cbn. split; [done |].
  rewrite Hb, settle_calls_snoc, Ha. cbn. lia.
Qed.

(** Express: the same; the intercepted [res.end] is replayed, the
    settler is not called. *)
Lemma express_no_settle_on_error_status (req : TRequest) (st st1 st2 : St)
    (mw : Middleware) (payment : Payment) (r : HandlerResponse) :
  middlewares req = Some mw ->
  acquirePayment mw req (paymentRequirements mw req) st
  = (Returned (Some payment), st1) ->
  run_handler req st1 = (Responded r, st2) ->
  400 <= h_status r ->
  fst (express_paymentMiddleware middlewares paywall req st) = Returned tt
  /\ settle_calls
       (trace (snd (express_paymentMiddleware middlewares paywall req st)))
     = settle_calls (trace st).
Proof.
  intros Hroute Hacq Hrun Hstatus.
  pose proof (acquirePayment_state mw req (paymentRequirements mw req) st)
    as (Ha & _).
  pose proof (run_handler_state req st1) as (Hb & _).
  rewrite Hacq in Ha. rewrite Hrun in Hb. cbn in Ha, Hb.
  unfold express_paymentMiddleware. rewrite Hroute.
  unfold try_finally, try_catch, bind, modify, express_enter,
    set_deferred, set_res_end; cbn.
  rewrite acquirePayment_frame, Hacq; cbn.
  unfold express_next_patched. rewrite run_handler_frame, Hrun. cbn.
  replace (400 <=? h_status r) with true by (symmetry; by apply Z.leb_le).
  cbn. split; [done |].
  rewrite settle_calls_snoc, Hb, settle_calls_snoc, Ha. cbn. lia.
Qed.

(** Next.js: once the payment is acquired the middleware calls the
    settler at once, before the route has run; nothing it does depends
    on the response of the route. *)
Lemma next_settles_before_route (request : TRequest) (st st1 : St)
    (mw : Middleware) (payment : Payment) :
  middlewares request = Some mw ->
  acquirePayment mw request (paymentRequirements mw request) st
  = (Returned (Some payment), st1) ->
  trace (snd (next_paymentMiddleware middlewares paywall request st))
  = trace st1 ++ [EvSettle (payload payment) (selected payment)].
Proof.
  intros Hroute Hacq.
  unfold next_paymentMiddleware. rewrite Hroute.
  unfold try_catch, bind. rewrite Hacq.
  pose proof (settle_state payment st1) as Hs.
  destruct (AcquiredPayment_settle payment st1) as [[s | e |] st2];
    cbn in Hs; subst st2; cbn; [done | | done].
  by destruct e.
Qed.

(** The route wrapped by [withPayment] awaits the handler and then
    settles, whatever status the handler answered with. *)
Lemma withPayment_settles_any_status (request : TRequest) (st st1 st2 : St)
    (mw : Middleware) (payment : Payment) (r : HandlerResponse) :
  acquirePayment mw request (paymentRequirements mw request) st
  = (Returned (Some payment), st1) ->
  run_handler request st1 = (Responded r, st2) ->
  trace (snd (withPayment_middleware paywall mw request st))
  = trace st2 ++ [EvSettle (payload payment) (selected payment)].
Proof.
  intros Hacq Hrun.
  unfold withPayment_middleware, try_catch, bind. rewrite Hacq.
  unfold await_handler. rewrite Hrun.
  pose proof (settle_state payment st2) as Hs.
  destruct (AcquiredPayment_settle payment st2) as [[s | e |] st3];
    cbn in Hs; subst st3; cbn; [done | | done].
  by destruct e.
Qed.

Lemma settle_res (p : Payment) (st : St) :
  res (snd (AcquiredPayment_settle p st)) = res st.
Proof. by rewrite settle_state. Qed.

Lemma express_finally_res (st : St) : res (express_finally st) = res st.
Proof. unfold express_finally. by destruct (deferred st). Qed.

End AdapterProperties.

(** *** The Next.js adapter on a failing route *)

(** C1, at the request that breaks it. A paying request to the protected
    route [/broken], whose handler answers 500: behind the Next.js
    middleware the facilitator executes one settlement and the client
    still receives the 500, and a route wrapped by [withPayment] does the
    same; behind the Hono and Express middlewares the settler is not
    called. *)
Theorem next_route_settles_failed_request :
  (exists r st',
     next_route (collaborators := Demo.collaborators) Demo.middlewares None
       (Demo.paying "/broken") Demo.start = (Returned r, st')
     /\ status r = 500
     /\ settle_calls (trace st') = 1%nat
     /\ world st' = 1%nat)
  /\ (exists r st',
        withPayment_middleware (collaborators := Demo.collaborators) None
          Demo.middleware (Demo.paying "/broken") Demo.start
        = (Returned r, st')
        /\ status r = 500
        /\ settle_calls (trace st') = 1%nat
        /\ world st' = 1%nat)
  /\ settle_calls
       (trace (snd (hono_paymentMiddleware
                      (collaborators := Demo.collaborators) Demo.middlewares
                      None (Demo.paying "/broken") Demo.start))) = 0%nat
  /\ settle_calls
       (trace (snd (express_paymentMiddleware
                      (collaborators := Demo.collaborators) Demo.middlewares
                      None (Demo.paying "/broken") Demo.start))) = 0%nat.
Proof.
  split; [| split; [| split]].
  - eexists _, _. split; [reflexivity |]. by vm_compute.
  - eexists _, _. split; [reflexivity |]. by vm_compute.
  - by vm_compute.
  - by vm_compute.
Qed.

(** *** The Express adapter after a refused settlement *)

(** C2, at the request that breaks it. [toJSON] of an [X402Error] is the
    object with the four keys [x402Version], [error], [accepts] and
    [payer], in that order and no other, and the Hono middleware writes
    it under status 402 when the settlement is refused. The Express
    middleware asks for the same with [res.status(402).json(e.toJSON())],
    but [res.end] is still the adapter's replacement at that point. A
    paying request to the protected route [/weather], whose handler
    answers 200 with the body ["/weather"] and whose settlement the
    facilitator refuses, is answered with status 402 and the handler's
    body: the serialised error is never handed to the original
    [res.end]. *)
Theorem express_drops_settlement_rejection :
  (forall e : X402Error,
     toJSON (toJsonSafe (Collaborators := Demo.collaborators)) e
     = JObj [ ("x402Version", JNum 1);
              ("error", JStr match error e with
                             | ErrorObj _ text => text
                             | Str text => text
                             end);
              ("accepts", JArr (map Demo.requirement_json (accepts e)));
              ("payer", match payer e with
                        | Some address => JStr address
                        | None => JUndefined
                        end) ])
  /\ (exists st',
        hono_paymentMiddleware (collaborators := Demo.collaborators)
          Demo2.unsettled_middlewares None (Demo.paying "/weather") Demo.start
        = (Returned None, st')
        /\ status (res st') = 402
        /\ body (res st')
           = BodyJson (toJSON (toJsonSafe (Collaborators := Demo.collaborators))
                         Demo2.refusal))
  /\ (exists st',
        express_paymentMiddleware (collaborators := Demo.collaborators)
          Demo2.unsettled_middlewares None (Demo.paying "/weather") Demo.start
        = (Returned tt, st')
        /\ status (res st') = 402
        /\ body (res st') = BodyOther "/weather"
        /\ trace st'
           = [ EvVerify Demo.validPayment
                 (with_resource Demo.template
                    "https://api.example.com/resource");
               EvHandler (Demo.paying "/weather");
               EvSettle Demo.validPayment
                 (with_resource Demo.template
                    "https://api.example.com/resource");
               EvOriginalEnd (BodyOther "/weather") ]).
Proof.
  split; [| split].
  - by intros [[name text | text] reqs [address |]].
  - eexists. split; [reflexivity |]. by vm_compute.
  - eexists. split; [reflexivity |]. by vm_compute.
Qed.

(** * The properties on the concrete application *)

Lemma settle_failure_raises_X402Error_witness :
  fst (AcquiredPayment_settle (TRequest := Demo.Request)
         (Demo.payment Demo.settle_rejects) Demo.start)
  = Threw (ExnX402 (new_X402Error (ErrorObj "Error" "Settlement failed")
                      Demo.accepted None))
  /\ exists x,
       fst (AcquiredPayment_settle (TRequest := Demo.Request)
              (Demo.payment Demo.settle_refused) Demo.start)
       = Threw (ExnX402 x)
       /\ message x = "Settlement failed: insufficient_funds"
       /\ error x = Str "Settlement failed: insufficient_funds"
       /\ accepts x = Demo.accepted
       /\ payer x = Some "0xabc".
Proof.
  split.
  - apply (proj1 (settle_failure_raises_X402Error
                    (Demo.payment Demo.settle_rejects) Demo.start)
             (ErrorObj "Error" "Settlement failed") 0%nat).
    reflexivity.
  - apply (proj2 (settle_failure_raises_X402Error
                    (Demo.payment Demo.settle_refused) Demo.start)
             {| s_success := false; s_transaction := Some "0x123";
                s_network := Some "base-sepolia"; s_payer := Some "0xabc";
                s_errorReason := Some "insufficient_funds" |}
             0%nat "insufficient_funds");
      reflexivity.
Defined.

Lemma settle_success_returns_settlement_witness :
  AcquiredPayment_settle (TRequest := Demo.Request)
    (Demo.payment Demo.settle_ok) Demo.start
  = (Returned {| success := true; transaction := Some "0x123";
                 settled_network := Some "base-sepolia";
                 settled_payer := None |},
     set_world 1%nat
       (log (EvSettle Demo.validPayment
               (with_resource Demo.template "https://api.example.com/resource"))
          Demo.start)).
Proof.
  apply (settle_success_returns_settlement (Demo.payment Demo.settle_ok)
           Demo.start
           {| s_success := true; s_transaction := Some "0x123";
              s_network := Some "base-sepolia"; s_payer := None;
              s_errorReason := None |} 1%nat);
    reflexivity.
Defined.

Lemma acquirePayment_invalid_verification_witness :
  exists x,
    fst (acquirePayment (collaborators := Demo.collaborators)
           Demo.strict_middleware (Demo.paying "/weather") Demo.accepted
           Demo.start)
    = Threw (ExnX402 x)
    /\ message x = "insufficient_funds"
    /\ accepts x = Demo.accepted
    /\ payer x = Some "0xdef".
Proof.
  apply (acquirePayment_invalid_verification
           (collaborators := Demo.collaborators) Demo.strict_middleware
           (Demo.paying "/weather") Demo.accepted Demo.start Demo.validPayment
           (with_resource Demo.template "https://api.example.com/resource")
           {| isValid := false; invalidReason := Some "insufficient_funds";
              v_payer := Some "0xdef" |} 0%nat);
    reflexivity.
Defined.

Lemma acquirePayment_no_payload_witness :
  acquirePayment (collaborators := Demo.collaborators) Demo.middleware
    (Demo.visitor "/weather") Demo.accepted Demo.start
  = (Returned None, Demo.start)
  /\ exists x,
       acquirePayment (collaborators := Demo.collaborators) Demo.middleware
         (Demo.anonymous "/weather") Demo.accepted Demo.start
       = (Threw (ExnX402 x), Demo.start)
       /\ message x = "X-PAYMENT header is required"
       /\ accepts x = Demo.accepted
       /\ payer x = None.
Proof.
  split.
  - apply (proj1 (acquirePayment_no_payload
                    (collaborators := Demo.collaborators) Demo.middleware
                    (Demo.visitor "/weather") Demo.accepted Demo.start
                    eq_refl)).
    exists Demo.browser. split; reflexivity.
  - apply (proj2 (acquirePayment_no_payload
                    (collaborators := Demo.collaborators) Demo.middleware
                    (Demo.anonymous "/weather") Demo.accepted Demo.start
                    eq_refl)).
    intros (f & Hf & Htrue).
    injection Hf as <-. discriminate Htrue.
Defined.

Lemma acquirePayment_no_match_witness :
  exists x st',
    acquirePayment (collaborators := Demo.collaborators) Demo.middleware
      (Demo.paying "/weather") [] Demo.start
    = (Threw (ExnX402 x), st')
    /\ message x = "Unable to find matching payment requirements"
    /\ accepts x = []
    /\ payer x = None
    /\ st' = Demo.start
    /\ verify_calls (trace st') = verify_calls (trace Demo.start).
Proof.
  apply (acquirePayment_no_match (collaborators := Demo.collaborators)
           Demo.middleware (Demo.paying "/weather") [] Demo.start
           Demo.validPayment);
    reflexivity.
Defined.

(** C8 as the specification states it fails on an empty
    [config.resource]: that resource is supplied and the price converts,
    yet construction throws the error about the missing resource, for
    [""] is falsy for [||]. *)
Lemma constructor_ConfigError_counterexample :
  exists m,
    new_PaymentMiddleware (collaborators := Demo.collaborators)
      Demo.config_with_empty_resource
    = inl (PaymentMiddlewareConfigError m)
    /\ ~ ((config Demo.config_with_empty_resource ≫= m_resource = None
           /\ resourceFromRequest Demo.config_with_empty_resource = None
           /\ m = "Either config.resource or resourceFromRequest must be provided")
          \/ (~ (config Demo.config_with_empty_resource ≫= m_resource = None
                 /\ resourceFromRequest Demo.config_with_empty_resource = None)
              /\ price_converter (collaborators := Demo.collaborators)
                   Demo.config_with_empty_resource
                   (price Demo.config_with_empty_resource)
                   (c_network Demo.config_with_empty_resource)
                 = AtomicError m)).
Proof.
  exists "Either config.resource or resourceFromRequest must be provided".
  split; [reflexivity |].
  intros [(Hr & _) | (_ & Hconv)]; discriminate.
Qed.


Lemma paymentRequirements_frame_witness :
  exists r,
    paymentRequirements Demo.middleware (Demo.paying "/weather") = [r]
    /\ resource r = "https://api.example.com/resource"
    /\ exists h',
         paymentRequirements_store Demo.middleware 0 (Demo.paying "/weather")
           [template_object Demo.template] = ([1%nat], h')
         /\ h' !! 0%nat = Some (template_object Demo.template)
         /\ h' !! 1%nat = Some (requirements_object r).
Proof.
  destruct (paymentRequirements_frame Demo.middleware (Demo.paying "/weather")
              0 [template_object Demo.template] eq_refl)
    as (r & Hlist & Hres & _ & _ & _ & _ & _ & _ & _ & _ & _ & _
        & l' & h' & o & Hrun & _ & Hnew & Ho & _ & _ & Hold & _).
  exists r. split; [exact Hlist |]. split; [exact Hres |].
  exists h'.
  assert (Hl' : l' = 1%nat).
  { unfold paymentRequirements_store in Hrun; cbn in Hrun.
    by injection Hrun as <- _. }
  subst l' o. by repeat split.
Defined.

(** * Further properties of the core *)

Section CoreOutcomes.
Context {TRequest W Price PaymentPayload FacilitatorConfig PaywallConfig : Type}.
Context {collaborators :
  Collaborators TRequest W Price PaymentPayload FacilitatorConfig PaywallConfig}.

Local Abbreviation Config :=
  (PaymentMiddlewareConfig TRequest W Price PaymentPayload FacilitatorConfig PaywallConfig).
Local Abbreviation Middleware := (PaymentMiddleware TRequest W Price PaymentPayload).
Local Abbreviation Payment := (AcquiredPayment W PaymentPayload).
Local Abbreviation St := (State TRequest W PaymentPayload).

(** The case analysis behind the next theorem, shared with later proofs. *)
Lemma acquirePayment_payment_inversion_cases (mw : Middleware) (request : TRequest)
    (reqs : list PaymentRequirements) (st st' : St) (payment : Payment) :
  acquirePayment mw request reqs st = (Returned (Some payment), st') ->
  exists v w,
    mw_paymentFromRequest mw request = inr (Some (payload payment))
    /\ findMatchingPaymentRequirements reqs (payload payment)
       = Some (selected payment)
    /\ verify (mw_facilitator mw) (payload payment) (selected payment) (world st)
       = (inr v, w)
    /\ isValid v = true
    /\ requirements payment = reqs
    /\ ap_settle payment = settle (mw_facilitator mw)
    /\ st' = set_world w
               (log (EvVerify (payload payment) (selected payment)) st).
Proof.
  unfold acquirePayment, bind, await, throw, ret.
  destruct (mw_paymentFromRequest mw request) as [e | [p |]]; [done | |].
  - destruct (findMatchingPaymentRequirements reqs p) as [sel |] eqn:Hm;
      [| done].
    destruct (verify (mw_facilitator mw) p sel (world st)) as [[e | v] w]
      eqn:Hv; [done |].
    destruct (isValid v) eqn:Hvalid; cbn; [| done].
    intros H; injection H as <- <-. by exists v, w.
  - by destruct (match mw_canRenderPaywall mw with
                 | Some f => f request | None => false end).
Qed.

(** X1. An [AcquiredPayment] exists only behind a positive verification:
    when [acquirePayment] returns one, the extractor produced its
    payload, the matcher selected its requirement, the verifier was
    called once on that pair and answered [isValid: true]; the payment
    carries the requirement list it was given and the facilitator's
    [settle]. *)
Theorem acquirePayment_payment_inversion (mw : Middleware) (request : TRequest)
    (reqs : list PaymentRequirements) (st st' : St) (payment : Payment) :
  acquirePayment mw request reqs st = (Returned (Some payment), st') ->
  exists v w,
    mw_paymentFromRequest mw request = inr (Some (payload payment))
    /\ findMatchingPaymentRequirements reqs (payload payment)
       = Some (selected payment)
    /\ verify (mw_facilitator mw) (payload payment) (selected payment) (world st)
       = (inr v, w)
    /\ isValid v = true
    /\ requirements payment = reqs
    /\ ap_settle payment = settle (mw_facilitator mw)
    /\ st' = set_world w
               (log (EvVerify (payload payment) (selected payment)) st).
Proof. exact (acquirePayment_payment_inversion_cases mw request reqs st st' payment). Qed.

(** The case analysis behind the next theorem, shared with later proofs. *)
Lemma acquirePayment_error_inversion_cases (mw : Middleware) (request : TRequest)
    (reqs : list PaymentRequirements) (st st' : St) (x : X402Error) :
  acquirePayment mw request reqs st = (Threw (ExnX402 x), st') ->
  accepts x = reqs
  /\ ((exists e,
         mw_paymentFromRequest mw request = inl e
         /\ error x = e /\ payer x = None /\ st' = st)
      \/ (mw_paymentFromRequest mw request = inr None
          /\ error x = Str "X-PAYMENT header is required"
          /\ payer x = None /\ st' = st)
      \/ (exists p,
            mw_paymentFromRequest mw request = inr (Some p)
            /\ findMatchingPaymentRequirements reqs p = None
            /\ error x = Str "Unable to find matching payment requirements"
            /\ payer x = None /\ st' = st)
      \/ (exists p sel v w,
            mw_paymentFromRequest mw request = inr (Some p)
            /\ findMatchingPaymentRequirements reqs p = Some sel
            /\ verify (mw_facilitator mw) p sel (world st) = (inr v, w)
            /\ isValid v = false
            /\ error x = Str (nullish (invalidReason v)
                                "Payment verification failed")
            /\ payer x = v_payer v
            /\ st' = set_world w (log (EvVerify p sel) st))).
Proof.
  unfold acquirePayment, bind, await, throw, ret.
  destruct (mw_paymentFromRequest mw request) as [e | [p |]].
  - intros H; injection H as <- <-. split; [done |]. left. by exists e.
  - destruct (findMatchingPaymentRequirements reqs p) as [sel |] eqn:Hm.
    + destruct (verify (mw_facilitator mw) p sel (world st)) as [[e | v] w]
        eqn:Hv; [done |].
      destruct (isValid v) eqn:Hvalid; cbn; [done |].
      intros H; injection H as <- <-. split; [done |].
      do 3 right. by exists p, sel, v, w.
    + intros H; injection H as <- <-. split; [done |]. right; right; left. by exists p.
  - destruct (match mw_canRenderPaywall mw with
              | Some f => f request | None => false end); [done |].
    intros H; injection H as <- <-. split; [done |]. right; left. done.
Qed.

(** X2. Every [X402Error] that [acquirePayment] throws carries the
    requirement list it was given, and has one of four causes: the
    extractor threw (the error is the thrown value, no payer), there is
    no payload, no requirement matches, or the verifier answered
    [isValid: false]. Only in the last case has the verifier been
    called. *)
Theorem acquirePayment_error_inversion (mw : Middleware) (request : TRequest)
    (reqs : list PaymentRequirements) (st st' : St) (x : X402Error) :
  acquirePayment mw request reqs st = (Threw (ExnX402 x), st') ->
  accepts x = reqs
  /\ ((exists e,
         mw_paymentFromRequest mw request = inl e
         /\ error x = e /\ payer x = None /\ st' = st)
      \/ (mw_paymentFromRequest mw request = inr None
          /\ error x = Str "X-PAYMENT header is required"
          /\ payer x = None /\ st' = st)
      \/ (exists p,
            mw_paymentFromRequest mw request = inr (Some p)
            /\ findMatchingPaymentRequirements reqs p = None
            /\ error x = Str "Unable to find matching payment requirements"
            /\ payer x = None /\ st' = st)
      \/ (exists p sel v w,
            mw_paymentFromRequest mw request = inr (Some p)
            /\ findMatchingPaymentRequirements reqs p = Some sel
            /\ verify (mw_facilitator mw) p sel (world st) = (inr v, w)
            /\ isValid v = false
            /\ error x = Str (nullish (invalidReason v)
                                "Payment verification failed")
            /\ payer x = v_payer v
            /\ st' = set_world w (log (EvVerify p sel) st))).
Proof. exact (acquirePayment_error_inversion_cases mw request reqs st st' x). Qed.

(** The case analysis behind the next theorem, shared with later proofs. *)
Lemma settle_outcome_cases (p : Payment) (st : St) :
  exists out w,
    ap_settle p (payload p) (selected p) (world st) = (out, w)
    /\ snd (AcquiredPayment_settle p st)
       = set_world w (log (EvSettle (payload p) (selected p)) st)
    /\ match fst (AcquiredPayment_settle p st) with
       | Returned s =>
           exists resp,
             out = inr resp /\ s_success resp = true
             /\ s = {| success := true; transaction := s_transaction resp;
                       settled_network := s_network resp;
                       settled_payer := s_payer resp |}
       | Threw (ExnX402 x) =>
           accepts x = requirements p
           /\ ((exists e, out = inl e /\ error x = e /\ payer x = None)
               \/ (exists resp,
                     out = inr resp /\ s_success resp = false
                     /\ message x
                        = "Settlement failed: "
                          +:+ nullish (s_errorReason resp) "undefined"
                     /\ payer x = s_payer resp))
       | Threw (ExnForeign _) => False
       | Pending => False
       end.
Proof.
  unfold AcquiredPayment_settle, bind, try_catch, await, throw, ret.
  destruct (ap_settle p (payload p) (selected p) (world st)) as [[e | resp] w].
  - exists (inl e), w. cbn. repeat split; try done. left. by exists e.
  - exists (inr resp), w. cbn. destruct (s_success resp) eqn:Hok; cbn.
    + repeat split; try done. by exists resp.
    + repeat split; try done. right. exists resp.
      repeat split; try done; by destruct (s_errorReason resp).
Qed.

(** X4. [settle()] calls the settler exactly once, on the payment's own
    payload and selected requirement. It returns a settlement exactly
    when the settler answered [success: true]; every
    failure is an [X402Error] carrying the payment's requirement list,
    either wrapping the settler's rejection or with message
    ["Settlement failed: " + errorReason], where a missing [errorReason]
    prints as ["undefined"]. No exception leaves it unwrapped. *)
Theorem settle_outcome (p : Payment) (st : St) :
  exists out w,
    ap_settle p (payload p) (selected p) (world st) = (out, w)
    /\ snd (AcquiredPayment_settle p st)
       = set_world w (log (EvSettle (payload p) (selected p)) st)
    /\ match fst (AcquiredPayment_settle p st) with
       | Returned s =>
           exists resp,
             out = inr resp /\ s_success resp = true
             /\ s = {| success := true; transaction := s_transaction resp;
                       settled_network := s_network resp;
                       settled_payer := s_payer resp |}
       | Threw (ExnX402 x) =>
           accepts x = requirements p
           /\ ((exists e, out = inl e /\ error x = e /\ payer x = None)
               \/ (exists resp,
                     out = inr resp /\ s_success resp = false
                     /\ message x
                        = "Settlement failed: "
                          +:+ nullish (s_errorReason resp) "undefined"
                     /\ payer x = s_payer resp))
       | Threw (ExnForeign _) => False
       | Pending => False
       end.
Proof. exact (settle_outcome_cases p st). Qed.

(** *** Construction, completed *)

(** X5. An address that [getAddress] refuses surfaces as that library's
    own error, not as a configuration error, and only once the resource
    and the price have been accepted; [payTo] is checked before the
    asset. Construction succeeds exactly when the resource resolves, the
    price converts and both addresses are accepted. *)
Theorem constructor_outcome (cfg : Config) :
  (forall e,
     new_PaymentMiddleware cfg = inl (ForeignError e)
     <-> exists resource amount asset,
           resolve_resource cfg = Some resource
           /\ price_converter cfg (price cfg) (c_network cfg)
              = AtomicOk amount asset
           /\ (getAddress (c_payTo cfg) = inl e
               \/ (exists payTo', getAddress (c_payTo cfg) = inr payTo')
                  /\ getAddress (address asset) = inl e))
  /\ ((exists mw, new_PaymentMiddleware cfg = inr mw)
      <-> exists resource amount asset payTo' asset',
            resolve_resource cfg = Some resource
            /\ price_converter cfg (price cfg) (c_network cfg)
               = AtomicOk amount asset
            /\ getAddress (c_payTo cfg) = inr payTo'
            /\ getAddress (address asset) = inr asset').
Proof.
  unfold new_PaymentMiddleware.
  destruct (resolve_resource cfg) as [resource |];
    [destruct (price_converter cfg (price cfg) (c_network cfg))
       as [amount asset | err];
     [destruct (getAddress (c_payTo cfg)) as [e1 | payTo'] eqn:Hpay;
      [| destruct (getAddress (address asset)) as [e2 | asset'] eqn:Hasset]
     |] |].
  all: split; [intros e |]; split; intros Hx.
  all: repeat match goal with
              | H : exists _, _ |- _ => destruct H
              | H : _ /\ _ |- _ => destruct H
              | H : _ \/ _ |- _ => destruct H
              end;
       simplify_eq; try congruence.
  - eexists _, _, _. eauto.
  - eexists _, _, _. eauto 10.
  - eexists _, _, _, _, _. eauto 10.
  - by eexists.
Qed.

(** The case analysis behind the next theorem, shared with later proofs. *)
Lemma constructed_requirements_cases (cfg : Config) (mw : Middleware)
    (request : TRequest) :
  new_PaymentMiddleware cfg = inr mw ->
  exists amount asset payTo' asset' r,
    price_converter cfg (price cfg) (c_network cfg) = AtomicOk amount asset
    /\ getAddress (c_payTo cfg) = inr payTo'
    /\ getAddress (address asset) = inr asset'
    /\ paymentRequirements mw request =
       [ {| scheme := "exact"; network := c_network cfg;
            maxAmountRequired := amount; resource := r;
            description := nullish (config cfg ≫= m_description) "";
            mimeType := nullish (config cfg ≫= m_mimeType) "application/json";
            payTo := payTo';
            maxTimeoutSeconds := nullish (config cfg ≫= m_maxTimeoutSeconds) 300;
            asset := asset';
            outputSchema := config cfg ≫= m_outputSchema;
            extra := eip712 asset |} ]
    /\ (forall s, config cfg ≫= m_resource = Some s -> s <> "" -> r = s)
    /\ (forall f,
          (config cfg ≫= m_resource = None \/ config cfg ≫= m_resource = Some "") ->
          resourceFromRequest cfg = Some f -> r = f request).
Proof.
  unfold new_PaymentMiddleware.
  destruct (resolve_resource cfg) as [resource |] eqn:Hres; [| done].
  destruct (price_converter cfg (price cfg) (c_network cfg))
    as [amount asset | err]; [| done].
  destruct (getAddress (c_payTo cfg)) as [e | payTo'] eqn:Hpay; [done |].
  destruct (getAddress (address asset)) as [e | asset'] eqn:Hasset; [done |].
  intros [= <-].
  eexists amount, asset, payTo', asset', _.
  split; [done |]. split; [done |]. split; [done |].
  split; [reflexivity |]. unfold resource_of; cbn.
  unfold resolve_resource, Resource in *. split.
  - intros s Hs Hne. rewrite Hs in Hres.
    unfold truthy in Hres. rewrite bool_decide_eq_false_2 in Hres by done.
    cbn in Hres. by injection Hres as <-.
  - intros f Hs Hf.
    destruct Hs as [Hs | Hs]; rewrite Hs, Hf in Hres; cbn in Hres;
      by injection Hres as <-.
Qed.


End CoreOutcomes.

(** * Further properties of the adapters *)

Section AdapterOutcomes.
Context {TRequest W Price PaymentPayload FacilitatorConfig PaywallConfig : Type}.
Context {collaborators :
  Collaborators TRequest W Price PaymentPayload FacilitatorConfig PaywallConfig}.

Local Abbreviation Middleware := (PaymentMiddleware TRequest W Price PaymentPayload).
Local Abbreviation Payment := (AcquiredPayment W PaymentPayload).
Local Abbreviation St := (State TRequest W PaymentPayload).

Variable middlewares : TRequest -> option Middleware.
Variable paywall : option PaywallConfig.

(** The calls [acquirePayment] records, by outcome. *)
Lemma acquirePayment_trace (mw : Middleware) (request : TRequest)
    (reqs : list PaymentRequirements) (st : St) :
  res (snd (acquirePayment mw request reqs st)) = res st
  /\ deferred (snd (acquirePayment mw request reqs st)) = deferred st
  /\ match fst (acquirePayment mw request reqs st) with
     | Returned (Some payment) =>
         trace (snd (acquirePayment mw request reqs st))
         = trace st ++ [EvVerify (payload payment) (selected payment)]
     | Returned None => snd (acquirePayment mw request reqs st) = st
     | Threw _ =>
         trace (snd (acquirePayment mw request reqs st)) = trace st
         \/ exists p sel,
              trace (snd (acquirePayment mw request reqs st))
              = trace st ++ [EvVerify p sel]
     | Pending => False
     end.
Proof.
  unfold acquirePayment, bind, await, throw, ret.
  destruct (mw_paymentFromRequest mw request) as [e | [p |]]; cbn.
  - repeat split. by left.
  - destruct (findMatchingPaymentRequirements reqs p) as [sel |]; cbn.
    + destruct (verify (mw_facilitator mw) p sel (world st)) as [[e | v] w];
        cbn; [repeat split; right; by exists p, sel |].
      destruct (isValid v); cbn; repeat split.
      right. by exists p, sel.
    + repeat split. by left.
  - destruct (match mw_canRenderPaywall mw with
              | Some f => f request | None => false end); cbn;
      repeat split. by left.
Qed.

(** Unfolds one step of an adapter on a known sub-result. *)
Local Ltac path :=
  cbn in *; rewrite ?express_finally_res; cbn in *;
  repeat match goal with
         | |- _ /\ _ => split
         | H : _ /\ _ |- _ => destruct H
         | H : False |- _ => destruct H
         end;
  subst; try done; try congruence.

(** The case analysis behind the next theorem, shared with later proofs. *)
Lemma hono_call_order_cases (c : TRequest) (st : St) :
  match middlewares c with
  | Some mw =>
      trace (snd (hono_paymentMiddleware middlewares paywall c st)) = trace st
      \/ exists p r evs,
           trace (snd (hono_paymentMiddleware middlewares paywall c st))
           = trace st ++ EvVerify p r :: evs
           /\ evs `prefix_of` [EvHandler c; EvSettle p r]
  | None =>
      trace (snd (hono_paymentMiddleware middlewares paywall c st))
      = trace st ++ [EvHandler c]
  end.
Proof.
  unfold hono_paymentMiddleware.
  destruct (middlewares c) as [mw |].
  - unfold try_catch, bind.
    pose proof (acquirePayment_trace mw c (paymentRequirements mw c) st)
      as (_ & _ & Ht).
    destruct (acquirePayment mw c (paymentRequirements mw c) st)
      as [[[payment |] | ex |] st1]; cbn in Ht; [| path; by left | | done].
    + right. exists (payload payment), (selected payment).
      unfold hono_next.
      pose proof (run_handler_state c st1) as (Hh & _).
      destruct (run_handler c st1) as [[r | e |] st2]; cbn in Hh |- *.
      * destruct (400 <=? h_status r); cbn.
        -- exists [EvHandler c]. rewrite Hh, Ht, <- (assoc_L (++)).
           split; [done | by exists [EvSettle (payload payment) (selected payment)]].
        -- pose proof (settle_state payment
                         (set_res (response_of_handler r) st2)) as Hs.
           exists [EvHandler c; EvSettle (payload payment) (selected payment)].
           split; [| done].
           destruct (AcquiredPayment_settle payment
                       (set_res (response_of_handler r) st2))
             as [[s | [x | e] |] st3]; cbn in Hs |- *; subst st3; cbn;
             by rewrite Hh, Ht, <- !(assoc_L (++)).
      * exists [EvHandler c]. rewrite Hh, Ht, <- (assoc_L (++)).
        split; [done | by exists [EvSettle (payload payment) (selected payment)]].
      * exists [EvHandler c]. rewrite Hh, Ht, <- (assoc_L (++)).
        split; [done | by exists [EvSettle (payload payment) (selected payment)]].
    + destruct ex as [x | e]; cbn.
      * destruct Ht as [Ht | (p & sel & Ht)]; [by left |].
        right. exists p, sel, []. split; [done | by eexists].
      * destruct Ht as [Ht | (p & sel & Ht)]; [by left |].
        right. exists p, sel, []. split; [done | by eexists].
  - unfold bind, hono_next.
    pose proof (run_handler_state c st) as (Hh & _).
    by destruct (run_handler c st) as [[r | e |] st'].
Qed.

(** X7. Hono, on a protected route: the verifier is called at most once
    and first, the handler at most once and only after it, the settler
    at most once and only after the handler; nothing else is called. On
    an unprotected route the handler is called once and the facilitator
    not at all. *)
Theorem hono_call_order (c : TRequest) (st : St) :
  match middlewares c with
  | Some mw =>
      trace (snd (hono_paymentMiddleware middlewares paywall c st)) = trace st
      \/ exists p r evs,
           trace (snd (hono_paymentMiddleware middlewares paywall c st))
           = trace st ++ EvVerify p r :: evs
           /\ evs `prefix_of` [EvHandler c; EvSettle p r]
  | None =>
      trace (snd (hono_paymentMiddleware middlewares paywall c st))
      = trace st ++ [EvHandler c]
  end.
Proof. exact (hono_call_order_cases c st). Qed.

(** Unfolds the Express handler down to the states it passes through. *)
Local Ltac express_steps :=
  unfold try_finally, try_catch, bind, modify, get_res, ret, throw,
    express_enter, express_next_patched, await_deferred, res_send,
    res_end_call, original_end, deferred_resolve, express_finally,
    set_deferred, set_res_end, set_res, log;
  cbn.

(** X8. Express, once a payment is acquired on a request that starts
    with an unresolved deferred promise. If the handler ends the
    response, the middleware finishes and calls the original [res.end]
    exactly once, last, with the handler's arguments, after the settler
    if the status is below 400 and without any settlement otherwise. If
    the handler throws, the exception leaves the middleware as it is,
    with [res.end] restored. If the handler never ends the response, the
    middleware stays suspended: nothing is settled, [res.end] is not
    called and stays replaced. *)
Theorem express_finalization (req : TRequest) (st st1 st2 : St)
    (mw : Middleware) (payment : Payment) (d : Downstream) :
  deferred st = None ->
  middlewares req = Some mw ->
  acquirePayment mw req (paymentRequirements mw req) st
  = (Returned (Some payment), st1) ->
  run_handler req st1 = (d, st2) ->
  match d with
  | Responded r =>
      fst (express_paymentMiddleware middlewares paywall req st) <> Pending
      /\ exists evs,
           trace (snd (express_paymentMiddleware middlewares paywall req st))
           = trace st2 ++ evs ++ [EvOriginalEnd (BodyOther (h_content r))]
           /\ ((400 <= h_status r /\ evs = [])
               \/ (h_status r < 400
                   /\ evs = [EvSettle (payload payment) (selected payment)]))
  | Failed e =>
      express_paymentMiddleware middlewares paywall req st
      = (Threw (ExnForeign e), set_res_end OriginalEnd st2)
  | NeverResponds =>
      express_paymentMiddleware middlewares paywall req st
      = (Pending, set_res_end PatchedEnd st2)
  end.
Proof.
  intros Hfresh Hroute Hacq Hrun.
  pose proof (acquirePayment_trace mw req (paymentRequirements mw req) st)
    as (Hr1 & Hd1 & _).
  pose proof (run_handler_state req st1) as (_ & Hr2 & Hd2).
  rewrite Hacq in Hr1, Hd1. rewrite Hrun in Hr2, Hd2. cbn in Hr1, Hd1, Hr2, Hd2.
  unfold express_paymentMiddleware. rewrite Hroute. express_steps.
  rewrite acquirePayment_frame, Hacq; cbn.
  rewrite run_handler_frame, Hrun.
  destruct d as [r | e |]; cbn.
  - destruct (Z.leb_spec 400 (h_status r)) as [Hge | Hlt]; cbn.
    + split; [done |]. exists []. split; [done | left; split; [lia | reflexivity]].
    + rewrite settle_frame.
      pose proof (settle_outcome_cases payment st2)
        as (out & w & _ & Hs & Hcase).
      destruct (AcquiredPayment_settle payment st2)
        as [[s | [x | e] |] st3]; cbn in Hs, Hcase |- *; try done;
        subst st3; cbn.
      * split; [done |]. eexists. split; [| right; split; [lia | reflexivity]].
        by rewrite <- !(assoc_L (++)).
      * destruct (h_headersSent r); cbn; (split; [done |]);
          (eexists; split; [| right; split; [lia | reflexivity]]);
          by rewrite <- !(assoc_L (++)).
  - f_equal. destruct st2; cbn in *. congruence.
  - f_equal. destruct st2; cbn in *. congruence.
Qed.

(** X3. A rejection of the verifier is not a protocol error. When the
    payload is present and matched and [verify] rejects with [e],
    [acquirePayment] throws [e] itself, not an [X402Error], after that
    one call, and each of the four handlers lets [e] through: no 402 is
    produced and neither the handler nor the settler is called. Express
    restores [res.end] on the way out without calling it. *)
Theorem verifier_rejection_propagates (mw : Middleware) (request : TRequest)
    (st : St) (p : PaymentPayload) (sel : PaymentRequirements)
    (e : ErrorOrString) (w : W) :
  mw_paymentFromRequest mw request = inr (Some p) ->
  findMatchingPaymentRequirements (paymentRequirements mw request) p
  = Some sel ->
  verify (mw_facilitator mw) p sel (world st) = (inl e, w) ->
  let st' := set_world w (log (EvVerify p sel) st) in
  acquirePayment mw request (paymentRequirements mw request) st
  = (Threw (ExnForeign e), st')
  /\ withPayment_middleware paywall mw request st = (Threw (ExnForeign e), st')
  /\ (middlewares request = Some mw ->
      hono_paymentMiddleware middlewares paywall request st
      = (Threw (ExnForeign e), st')
      /\ next_paymentMiddleware middlewares paywall request st
         = (Threw (ExnForeign e), st')
      /\ express_paymentMiddleware middlewares paywall request st
         = (Threw (ExnForeign e),
            set_res_end OriginalEnd (set_deferred None st'))).
Proof.
  intros Hextract Hmatch Hverify st'.
  assert (Hacq : acquirePayment mw request (paymentRequirements mw request) st
                 = (Threw (ExnForeign e), st')).
  { unfold acquirePayment, bind, await. by rewrite Hextract, Hmatch, Hverify. }
  split; [done |]. split.
  - unfold withPayment_middleware, try_catch, bind. by rewrite Hacq.
  - intros Hroute.
    unfold hono_paymentMiddleware, next_paymentMiddleware,
      express_paymentMiddleware.
    rewrite Hroute. repeat split.
    + unfold try_catch, bind. by rewrite Hacq.
    + unfold try_catch, bind. by rewrite Hacq.
    + express_steps. by rewrite acquirePayment_frame, Hacq.
Qed.

(** X9. No [X402Error] leaves an adapter: each of the four handlers
    turns every protocol error into a response. *)
Theorem adapters_contain_protocol_errors (request : TRequest) (st : St)
    (x : X402Error) :
  fst (hono_paymentMiddleware middlewares paywall request st)
  <> Threw (ExnX402 x)
  /\ fst (express_paymentMiddleware middlewares paywall request st)
     <> Threw (ExnX402 x)
  /\ fst (next_paymentMiddleware middlewares paywall request st)
     <> Threw (ExnX402 x)
  /\ forall mw,
       fst (withPayment_middleware paywall mw request st) <> Threw (ExnX402 x).
Proof.
  repeat split.
  - unfold hono_paymentMiddleware.
    destruct (middlewares request) as [mw |].
    + unfold try_catch, bind.
      destruct (acquirePayment mw request (paymentRequirements mw request) st)
        as [[[payment |] | [x0 | e] |] st1]; try done.
      unfold hono_next.
      destruct (run_handler request st1) as [[r | e |] st2]; try done.
      cbn. destruct (400 <=? h_status r); [done |]. cbn.
      by destruct (AcquiredPayment_settle payment
                     (set_res (response_of_handler r) st2))
        as [[s | [x0 | e] |] st3].
    + unfold bind, hono_next.
      by destruct (run_handler request st) as [[r | e |] st'].
  - unfold express_paymentMiddleware.
    destruct (middlewares request) as [mw |].
    + express_steps.
      repeat (case_match; simplify_eq/=; try done).
    + unfold express_next_unpatched.
      by destruct (run_handler request st) as [[r | e |] st'].
  - unfold next_paymentMiddleware.
    destruct (middlewares request) as [mw |]; [| done].
    unfold try_catch, bind.
    destruct (acquirePayment mw request (paymentRequirements mw request) st)
      as [[[payment |] | [x0 | e] |] st1]; try done.
    by destruct (AcquiredPayment_settle payment st1)
      as [[s | [x0 | e] |] st2].
  - intros mw. unfold withPayment_middleware, try_catch, bind.
    destruct (acquirePayment mw request (paymentRequirements mw request) st)
      as [[[payment |] | [x0 | e] |] st1]; try done.
    unfold await_handler.
    destruct (run_handler request st1) as [[r | e |] st2]; try done.
    by destruct (AcquiredPayment_settle payment st2)
      as [[s | [x0 | e] |] st3].
Qed.

(** **** Every rejection lists the requirements *)

Lemma protocol_body_for_json (reqs : list PaymentRequirements)
    (hdrs : gmap string string) (x : X402Error) (sent : bool) :
  accepts x = reqs ->
  protocol_body_for toJsonSafe reqs
    {| status := 402; headers := hdrs;
       body := BodyJson (toJSON toJsonSafe x); headersSent := sent |}.
Proof. intros Hx. split; [done | by exists x]. Qed.

Lemma protocol_body_for_set_header (reqs : list PaymentRequirements)
    (k v : string) (r : Response) :
  protocol_body_for toJsonSafe reqs r ->
  protocol_body_for toJsonSafe reqs (set_header k v r).
Proof. done. Qed.

#[local] Arguments protocol_body_for : simpl never.

(** Closes a path on which the response is the handler's, the paywall,
    the untouched one, or the error [x] with the right list. *)
Local Ltac listed :=
  cbn in *; rewrite ?express_finally_res; cbn;
  repeat match goal with
         | |- _ /\ _ => split
         | |- forall _, _ => intro
         | H : _ /\ _ |- _ => destruct H
         | H : False |- _ => destruct H
         | H : Returned _ = Returned _ |- _ => injection H as H
         | H : Some _ = Some _ |- _ => injection H as H
         | H : NextFinal _ = NextFinal _ |- _ => injection H as H
         end;
  subst; cbn in *; unfold json_402, html_402;
  try done;
  try (apply protocol_body_for_json; congruence);
  try (apply protocol_body_for_set_header; done);
  try congruence;
  try (apply protocol_body_for_set_header; congruence).

#[local] Set Warnings "-clear-no-such-hyp".

(** Express: a JSON body that reaches the original [res.end] is the
    rejection of the request. *)
Lemma express_json_sent (request : TRequest) (st : St) (mw : Middleware)
    (v : Json) :
  middlewares request = Some mw ->
  EvOriginalEnd (BodyJson v)
    ∈ trace (snd (express_paymentMiddleware middlewares paywall request st)) ->
  EvOriginalEnd (BodyJson v) ∈ trace st
  \/ exists x, v = toJSON toJsonSafe x
               /\ accepts x = paymentRequirements mw request.
Proof.
  intros Hroute.
  pose proof (acquirePayment_trace mw request (paymentRequirements mw request) st)
    as (_ & _ & Ht).
  pose proof (fun x st' H =>
                proj1 (acquirePayment_error_inversion_cases mw request
                         (paymentRequirements mw request) st st' x H)) as Herr.
  unfold express_paymentMiddleware. rewrite Hroute. express_steps.
  rewrite acquirePayment_frame.
  destruct (acquirePayment mw request (paymentRequirements mw request) st)
    as [[[payment |] | [x | e] |] st1]; cbn in Ht |- *.
  - rewrite run_handler_frame.
    pose proof (run_handler_state request st1) as (Hh & _).
    destruct (run_handler request st1) as [[r | e |] st2]; cbn in Hh |- *.
    + destruct (400 <=? h_status r); cbn.
      * rewrite Hh, Ht. set_unfold. naive_solver.
      * rewrite settle_frame.
        pose proof (settle_state payment st2) as Hs.
        destruct (AcquiredPayment_settle payment st2)
          as [[s | [x | e] |] st3]; cbn in Hs |- *; subst st3; cbn;
          try destruct (h_headersSent r); cbn;
          rewrite Hh, Ht; set_unfold; naive_solver.
    + rewrite Hh, Ht. set_unfold. naive_solver.
    + rewrite Hh, Ht. set_unfold. naive_solver.
  - subst st1. set_unfold. naive_solver.
  - specialize (Herr x st1 eq_refl).
    destruct (headersSent (res st)); cbn;
      destruct Ht as [-> | (p & sel & ->)]; set_unfold; naive_solver.
  - destruct Ht as [-> | (p & sel & ->)]; set_unfold; naive_solver.
  - done.
Qed.


(** **** The Next.js entry points *)

(** X11. On a protected route the Next.js middleware lets the request
    continue only when the payment has been verified and then settled
    with success: the verifier and the settler have each been called
    once, in that order, and the only header it adds is
    [X-PAYMENT-RESPONSE], encoding that settlement. *)
Theorem next_continue_means_settled (request : TRequest) (st st' : St)
    (mw : Middleware) (hdrs : gmap string string) :
  middlewares request = Some mw ->
  next_paymentMiddleware middlewares paywall request st
  = (Returned (NextContinue hdrs), st') ->
  exists payment st1 resp w,
    acquirePayment mw request (paymentRequirements mw request) st
    = (Returned (Some payment), st1)
    /\ ap_settle payment (payload payment) (selected payment) (world st1)
       = (inr resp, w)
    /\ s_success resp = true
    /\ hdrs = {[ "X-PAYMENT-RESPONSE" :=
                 settleResponseHeader
                   {| success := true; transaction := s_transaction resp;
                      settled_network := s_network resp;
                      settled_payer := s_payer resp |} ]}
    /\ trace st'
       = trace st ++ [EvVerify (payload payment) (selected payment);
                      EvSettle (payload payment) (selected payment)].
Proof.
  intros Hroute. unfold next_paymentMiddleware. rewrite Hroute.
  unfold try_catch, bind.
  pose proof (acquirePayment_trace mw request (paymentRequirements mw request) st)
    as (_ & _ & Ht).
  destruct (acquirePayment mw request (paymentRequirements mw request) st)
    as [[[payment |] | [x | e] |] st1]; cbn in Ht |- *; try done.
  pose proof (settle_outcome_cases payment st1) as (out & w & Hcall & Hs & Hcase).
  destruct (AcquiredPayment_settle payment st1) as [[s | [x | e] |] st2];
    cbn in Hs, Hcase |- *; try done.
  destruct Hcase as (resp & -> & Hok & ->).
  intros H; injection H as <- <-.
  exists payment, st1, resp, w. subst st2; cbn.
  repeat split; try done. by rewrite Ht, <- (assoc_L (++)).
Qed.

(** X12. The calls of the Next.js entry points on a protected request.
    The middleware calls the verifier at most once and then the settler
    at most once, and never the handler; a route wrapped by
    [withPayment] calls verifier, handler and settler, each at most
    once, in that order. *)
Theorem next_call_order (request : TRequest) (st : St) (mw : Middleware) :
  (middlewares request = Some mw ->
   trace (snd (next_paymentMiddleware middlewares paywall request st))
   = trace st
   \/ exists p r evs,
        trace (snd (next_paymentMiddleware middlewares paywall request st))
        = trace st ++ EvVerify p r :: evs
        /\ evs `prefix_of` [EvSettle p r])
  /\ (trace (snd (withPayment_middleware paywall mw request st)) = trace st
      \/ exists p r evs,
           trace (snd (withPayment_middleware paywall mw request st))
           = trace st ++ EvVerify p r :: evs
           /\ evs `prefix_of` [EvHandler request; EvSettle p r]).
Proof.
  pose proof (acquirePayment_trace mw request (paymentRequirements mw request) st)
    as (_ & _ & Ht).
  split.
  - intros Hroute. unfold next_paymentMiddleware. rewrite Hroute.
    unfold try_catch, bind.
    destruct (acquirePayment mw request (paymentRequirements mw request) st)
      as [[[payment |] | ex |] st1]; cbn in Ht; [| path; by left | | done].
    + right. exists (payload payment), (selected payment),
               [EvSettle (payload payment) (selected payment)].
      split; [| done].
      pose proof (settle_state payment st1) as Hs.
      destruct (AcquiredPayment_settle payment st1) as [[s | [x | e] |] st2];
        cbn in Hs |- *; subst st2; cbn; by rewrite Ht, <- (assoc_L (++)).
    + destruct ex as [x | e]; cbn;
        (destruct Ht as [Ht | (p & sel & Ht)]; [by left |]);
        right; exists p, sel, []; (split; [done | by eexists]).
  - unfold withPayment_middleware, try_catch, bind.
    destruct (acquirePayment mw request (paymentRequirements mw request) st)
      as [[[payment |] | ex |] st1]; cbn in Ht; [| path; by left | | done].
    + right. exists (payload payment), (selected payment).
      unfold await_handler.
      pose proof (run_handler_state request st1) as (Hh & _).
      destruct (run_handler request st1) as [[r | e |] st2]; cbn in Hh |- *.
      * exists [EvHandler request; EvSettle (payload payment) (selected payment)].
        split; [| done].
        pose proof (settle_state payment st2) as Hs.
        destruct (AcquiredPayment_settle payment st2) as [[s | [x | e] |] st3];
          cbn in Hs |- *; subst st3; cbn;
          by rewrite Hh, Ht, <- !(assoc_L (++)).
      * exists [EvHandler request]. rewrite Hh, Ht, <- (assoc_L (++)).
        split; [done | by exists [EvSettle (payload payment) (selected payment)]].
      * exists [EvHandler request]. rewrite Hh, Ht, <- (assoc_L (++)).
        split; [done | by exists [EvSettle (payload payment) (selected payment)]].
    + destruct ex as [x | e]; cbn;
        (destruct Ht as [Ht | (p & sel & Ht)]; [by left |]);
        right; exists p, sel, []; (split; [done | by eexists]).
Qed.

(** **** The paywall *)

(** X13. When [acquirePayment] returns no payment, every adapter answers
    with status 402 and an HTML page as the body, and calls neither the
    handler nor the facilitator. Hono, Next.js and [withPayment] serve
    [customPaywallHtml] whenever it is set, the empty string included, in
    a new response whose only header is the content type; Express serves
    it only when it is non-empty and falls back to the rendered paywall
    otherwise, sets the status on [res] and hands the page to the
    original [res.end], once. *)
Theorem paywall_branch (request : TRequest) (st : St) (mw : Middleware) :
  middlewares request = Some mw ->
  fst (acquirePayment mw request (paymentRequirements mw request) st)
  = Returned None ->
  let page :=
    nullish (customPaywallHtml mw)
      (default_paywall paywall mw request (paymentRequirements mw request)) in
  hono_paymentMiddleware middlewares paywall request st
  = (Returned (Some {| status := 402;
                       headers :=
                         {["Content-Type" := "text/html; charset=UTF-8"]};
                       body := BodyHtml page; headersSent := false |}), st)
  /\ next_paymentMiddleware middlewares paywall request st
     = (Returned (NextFinal {| status := 402;
                               headers := {["Content-Type" := "text/html"]};
                               body := BodyHtml page;
                               headersSent := false |}), st)
  /\ withPayment_middleware paywall mw request st
     = (Returned {| status := 402;
                    headers := {["Content-Type" := "text/html"]};
                    body := BodyHtml page; headersSent := false |}, st)
  /\ exists html,
       express_paymentMiddleware middlewares paywall request st
       = (Returned tt,
          {| world := world st;
             trace := trace st ++ [EvOriginalEnd (BodyHtml html)];
             res := {| status := 402;
                       headers := send_headers (BodyHtml html)
                                    (headers (res st));
                       body := BodyHtml html; headersSent := true |};
             deferred := None; res_end := OriginalEnd |})
       /\ (forall h, customPaywallHtml mw = Some h -> h <> "" -> html = h)
       /\ (customPaywallHtml mw = None \/ customPaywallHtml mw = Some "" ->
           html = default_paywall paywall mw request
                    (paymentRequirements mw request)).
Proof.
  intros Hroute Hnone page.
  pose proof (acquirePayment_trace mw request (paymentRequirements mw request) st)
    as (_ & _ & Ht).
  unfold hono_paymentMiddleware, next_paymentMiddleware,
    express_paymentMiddleware, withPayment_middleware.
  rewrite Hroute. express_steps. rewrite acquirePayment_frame.
  destruct (acquirePayment mw request (paymentRequirements mw request) st)
    as [out st1]; cbn in Hnone, Ht; subst out; subst st1.
  repeat split. eexists. cbn.
  split; [reflexivity |]. split.
  - intros h -> Hne. unfold truthy. by rewrite bool_decide_eq_false_2.
  - by intros [-> | ->].
Qed.

(** **** After the handler *)

(** The outcome of [settle()] depends on the world only. *)
Lemma settle_fst_world (p : Payment) (s s' : St) :
  world s = world s' ->
  fst (AcquiredPayment_settle p s) = fst (AcquiredPayment_settle p s').
Proof.
  intros Hw.
  unfold AcquiredPayment_settle, bind, try_catch, await, throw, ret.
  rewrite Hw.
  destruct (ap_settle p (payload p) (selected p) (world s')) as [[e | resp] w];
    cbn; [done |].
  by destruct (s_success resp).
Qed.

(** X14. A paid request that succeeds: the payment is acquired, the
    handler answers with a status below 400 and the settler answers
    [success: true]. Hono, a route wrapped by [withPayment], and Express
    when the handler has not sent the headers, then deliver the handler's
    own response, status, body and headers untouched, with the one
    header [X-PAYMENT-RESPONSE] set to the encoded settlement. *)
Theorem paid_request_served (request : TRequest) (st st1 st2 : St)
    (mw : Middleware) (payment : Payment) (r : HandlerResponse)
    (resp : SettleResponse) (w : W) :
  middlewares request = Some mw ->
  acquirePayment mw request (paymentRequirements mw request) st
  = (Returned (Some payment), st1) ->
  run_handler request st1 = (Responded r, st2) ->
  h_status r < 400 ->
  ap_settle payment (payload payment) (selected payment) (world st2)
  = (inr resp, w) ->
  s_success resp = true ->
  let served :=
    {| status := h_status r;
       headers := <["X-PAYMENT-RESPONSE" :=
                    settleResponseHeader
                      {| success := true; transaction := s_transaction resp;
                         settled_network := s_network resp;
                         settled_payer := s_payer resp |}]> (h_headers r);
       body := BodyOther (h_content r);
       headersSent := h_headersSent r |} in
  (fst (hono_paymentMiddleware middlewares paywall request st) = Returned None
   /\ res (snd (hono_paymentMiddleware middlewares paywall request st)) = served)
  /\ (h_headersSent r = false ->
      fst (express_paymentMiddleware middlewares paywall request st)
      = Returned tt
      /\ res (snd (express_paymentMiddleware middlewares paywall request st))
         = served)
  /\ fst (withPayment_middleware paywall mw request st) = Returned served.
Proof.
  intros Hroute Hacq Hrun Hlt Hcall Hok served.
  assert (Hleb : (400 <=? h_status r) = false) by by apply Z.leb_gt.
  split; [| split].
  - unfold hono_paymentMiddleware.
    rewrite Hroute. unfold try_catch, bind. rewrite Hacq.
    unfold hono_next. rewrite Hrun. cbn. rewrite Hleb. cbn.
    unfold AcquiredPayment_settle, bind, try_catch, await, throw, ret. cbn.
    rewrite Hcall. cbn. by rewrite Hok.
  - intros _. unfold express_paymentMiddleware.
    rewrite Hroute. express_steps.
    rewrite acquirePayment_frame, Hacq. cbn.
    rewrite run_handler_frame, Hrun. cbn. rewrite Hleb. cbn.
    unfold AcquiredPayment_settle, bind, try_catch, await, throw, ret. cbn.
    rewrite Hcall. cbn. by rewrite Hok.
  - unfold withPayment_middleware, try_catch, bind. rewrite Hacq.
    unfold await_handler. rewrite Hrun. cbn.
    unfold AcquiredPayment_settle, bind, try_catch, await, throw, ret. cbn.
    rewrite Hcall. cbn. by rewrite Hok.
Qed.

(** X15. A paid request whose settlement fails after the handler has
    answered with a status below 400. Hono replaces [c.res] by the 402
    rejection, keeping the handler's headers, and [withPayment] returns
    the 402 rejection: the handler's body is not delivered. Express
    calls [res.status(402).json(...)] only if the handler has not sent
    the headers yet, and [res.end] is then still the replacement: the
    status becomes 402, the rejection is not written, and the one body
    handed to the original [res.end] is the handler's. If the headers
    were sent, Express swallows the error and leaves the handler's
    response as it is. *)
Theorem settlement_failure_response (request : TRequest) (st st1 st2 : St)
    (mw : Middleware) (payment : Payment) (r : HandlerResponse)
    (x : X402Error) :
  middlewares request = Some mw ->
  acquirePayment mw request (paymentRequirements mw request) st
  = (Returned (Some payment), st1) ->
  run_handler request st1 = (Responded r, st2) ->
  h_status r < 400 ->
  fst (AcquiredPayment_settle payment st2) = Threw (ExnX402 x) ->
  (fst (hono_paymentMiddleware middlewares paywall request st) = Returned None
   /\ res (snd (hono_paymentMiddleware middlewares paywall request st))
      = {| status := 402;
           headers := <["Content-Type" := "application/json"]> (h_headers r);
           body := BodyJson (toJSON toJsonSafe x); headersSent := false |})
  /\ fst (withPayment_middleware paywall mw request st)
     = Returned {| status := 402;
                   headers := {["Content-Type" := "application/json"]};
                   body := BodyJson (toJSON toJsonSafe x);
                   headersSent := false |}
  /\ fst (express_paymentMiddleware middlewares paywall request st)
     = Returned tt
  /\ trace (snd (express_paymentMiddleware middlewares paywall request st))
     = trace st2 ++ [EvSettle (payload payment) (selected payment);
                     EvOriginalEnd (BodyOther (h_content r))]
  /\ (h_headersSent r = false ->
      res (snd (express_paymentMiddleware middlewares paywall request st))
      = {| status := 402;
           headers := send_headers (BodyJson (toJSON toJsonSafe x))
                        (h_headers r);
           body := BodyOther (h_content r); headersSent := false |})
  /\ (h_headersSent r = true ->
      res (snd (express_paymentMiddleware middlewares paywall request st))
      = response_of_handler r).
Proof.
  intros Hroute Hacq Hrun Hlt Hfail.
  assert (Hleb : (400 <=? h_status r) = false) by by apply Z.leb_gt.
  pose proof (settle_state payment st2) as Hs.
  split; [| split].
  - unfold hono_paymentMiddleware.
    rewrite Hroute. unfold try_catch, bind. rewrite Hacq.
    unfold hono_next. rewrite Hrun. cbn. rewrite Hleb. cbn.
    pose proof (settle_fst_world payment
                  (set_res (response_of_handler r) st2) st2 eq_refl) as H1.
    pose proof (settle_res payment (set_res (response_of_handler r) st2))
      as R1.
    rewrite Hfail in H1.
    destruct (AcquiredPayment_settle payment
                (set_res (response_of_handler r) st2)) as [o1 s1].
    cbn in *. subst o1. cbn. by rewrite R1.
  - unfold withPayment_middleware, try_catch, bind. rewrite Hacq.
    unfold await_handler. rewrite Hrun.
    destruct (AcquiredPayment_settle payment st2) as [o3 s3].
    cbn in *. by subst o3.
  - unfold express_paymentMiddleware. rewrite Hroute. express_steps.
    rewrite acquirePayment_frame, Hacq. cbn.
    rewrite run_handler_frame, Hrun. cbn. rewrite Hleb. cbn.
    rewrite settle_frame.
    destruct (AcquiredPayment_settle payment st2) as [o3 s3].
    cbn in Hfail, Hs |- *. subst o3 s3. cbn.
    destruct (h_headersSent r) eqn:Hsent; cbn; rewrite <- !(assoc_L (++));
      repeat split; try done; intros _; by rewrite ?Hsent.
Qed.

End AdapterOutcomes.

(** * Properties of route maps *)

Section MapProperties.
Context {K V : Type} `{EqDecision K}.

Lemma Map_set_fresh (k : K) (v : V) (m : list (K * V)) :
  k ∉ map fst m -> Map_set k v m = m ++ [(k, v)].
Proof.
  induction m as [| [k' v'] m IH]; cbn; [done |].
  intros Hk. apply not_elem_of_cons in Hk as [Hne Hk].
  rewrite decide_False by done. by rewrite IH.
Qed.

Lemma Map_new_from (acc entries : list (K * V)) :
  NoDup (map fst (acc ++ entries)) ->
  foldl (fun m e => Map_set (fst e) (snd e) m) acc entries = acc ++ entries.
Proof.
  revert acc. induction entries as [| [k v] entries IH]; intros acc Hnd; cbn.
  - by rewrite (right_id_L [] (++)).
  - assert (Hk : k ∉ map fst acc).
    { rewrite map_app in Hnd. apply NoDup_app in Hnd as (_ & Hdisj & _).
      intros Hin. apply (Hdisj k Hin). cbn. by left. }
    rewrite (Map_set_fresh k v acc Hk).
    rewrite cons_middle, (assoc_L (++)) in Hnd.
    rewrite IH by done. by rewrite <- (assoc_L (++)).
Qed.

(** Distinct keys: the map holds the entries as they were given. *)
Lemma Map_new_NoDup (entries : list (K * V)) :
  NoDup (map fst entries) -> Map_new entries = entries.
Proof. intros Hnd. unfold Map_new. by rewrite Map_new_from. Qed.

Lemma Map_get_None (k : K) (m : list (K * V)) :
  k ∉ map fst m -> Map_get k m = None.
Proof.
  induction m as [| [k' v'] m IH]; cbn; [done |].
  intros Hk. apply not_elem_of_cons in Hk as [Hne Hk].
  rewrite decide_False by done. by apply IH.
Qed.

Lemma Map_get_Some (k : K) (v : V) (m : list (K * V)) :
  NoDup (map fst m) -> (k, v) ∈ m -> Map_get k m = Some v.
Proof.
  induction m as [| [k' v'] m IH]; cbn; [by intros _ ?%elem_of_nil |].
  intros Hnd Hin. apply NoDup_cons in Hnd as [Hk' Hnd].
  apply elem_of_cons in Hin as [[= <- <-] | Hin].
  - by rewrite decide_True.
  - rewrite decide_False; [by apply IH |].
    intros ->. apply Hk'. apply list_elem_of_fmap. by exists (k, v).
Qed.

End MapProperties.

Section ArrayMapProperties.
Context {A B E : Type}.

(** [map] returns the images, in order, exactly when no call throws. *)
Lemma Array_map_inr (f : A -> E + B) (l : list A) (bs : list B) :
  Array_map f l = inr bs <-> Forall2 (fun a b => f a = inr b) l bs.
Proof.
  revert bs. induction l as [| a l IH]; intros bs; cbn.
  - split; [intros [= <-]; constructor | by intros ->%Forall2_nil_inv_l].
  - destruct (f a) as [e | b] eqn:Hfa.
    + split; [done |]. intros (b & bs' & Hb & _ & _)%Forall2_cons_inv_l.
      congruence.
    + destruct (Array_map f l) as [e | bs'] eqn:Hl.
      * split; [done |]. intros (b' & bs' & _ & Hbs & _)%Forall2_cons_inv_l.
        by apply IH in Hbs.
      * split.
        -- intros [= <-]. constructor; [done | by apply IH].
        -- intros (b' & bs'' & Hb & Hbs & ->)%Forall2_cons_inv_l.
           apply IH in Hbs. congruence.
Qed.

(** [map] throws what the first failing call throws. *)
Lemma Array_map_inl (f : A -> E + B) (pre post : list A) (a : A) (e : E) :
  Forall (fun a' => exists b, f a' = inr b) pre ->
  f a = inl e ->
  Array_map f (pre ++ a :: post) = inl e.
Proof.
  intros Hpre Ha. induction Hpre as [| a' pre [b Hb] _ IH]; cbn.
  - by rewrite Ha.
  - by rewrite Hb, IH.
Qed.

End ArrayMapProperties.

Section RouteProperties.
Context {TRequest W Price PaymentPayload FacilitatorConfig PaywallConfig : Type}.
Context {collaborators :
  Collaborators TRequest W Price PaymentPayload FacilitatorConfig PaywallConfig}.
Context {RoutePattern RoutesConfig : Type} `{EqDecision RoutePattern}.
Variable rp_config : RoutePattern -> RouteConfig Price.
Variable computeRoutePatterns : RoutesConfig -> list RoutePattern.
Variable findMatchingRoute :
  list RoutePattern -> string -> string -> option RoutePattern.

Variable payTo : string.
Variable routes : RoutesConfig.
Variable paymentFromRequest : TRequest -> ErrorOrString + option PaymentPayload.
Variable canRenderPaywall : option (TRequest -> bool).
Variable facilitator : option FacilitatorConfig.
Variable paywall : option PaywallConfig.
Variable useFacilitatorFn : option FacilitatorConfig -> Facilitator W PaymentPayload.

Local Abbreviation Middleware := (PaymentMiddleware TRequest W Price PaymentPayload).
Local Abbreviation config_of :=
  (route_middleware_config rp_config payTo paymentFromRequest canRenderPaywall
     facilitator paywall (useFacilitatorFn facilitator)).
Local Abbreviation the_map :=
  (forRoutes rp_config computeRoutePatterns payTo routes paymentFromRequest
     canRenderPaywall facilitator paywall useFacilitatorFn).

(** Without [resourceFromRequest], a resolved resource is a non-empty
    static one. *)
Lemma resolve_resource_static
    (cfg : PaymentMiddlewareConfig TRequest W Price PaymentPayload
             FacilitatorConfig PaywallConfig)
    (resolved : Resource + (TRequest -> Resource)) :
  resourceFromRequest cfg = None ->
  resolve_resource cfg = Some resolved ->
  exists r, config cfg ≫= m_resource = Some r /\ r <> "" /\ resolved = inl r.
Proof.
  intros Hnone. unfold resolve_resource. rewrite Hnone.
  destruct (config cfg) as [meta |]; cbn; [| done].
  destruct (m_resource meta) as [r |]; cbn; [| done].
  unfold truthy. destruct (decide (r = "")) as [-> | Hne].
  - by rewrite bool_decide_eq_true_2.
  - rewrite bool_decide_eq_false_2 by done. cbn. intros [= <-]. by exists r.
Qed.

(** What a middleware built for a route pattern is made of. *)
Lemma route_middleware (rp : RoutePattern) (mw : Middleware) :
  new_PaymentMiddleware (config_of rp) = inr mw ->
  verify (mw_facilitator mw) = verify (useFacilitatorFn facilitator)
  /\ settle (mw_facilitator mw) = settle (useFacilitatorFn facilitator)
  /\ mw_paymentFromRequest mw = paymentFromRequest
  /\ mw_canRenderPaywall mw = canRenderPaywall
  /\ exists r,
       rc_config (rp_config rp) ≫= m_resource = Some r /\ r <> ""
       /\ mw_resource mw = inl r.
Proof.
  unfold new_PaymentMiddleware.
  destruct (resolve_resource (config_of rp)) as [resolved |] eqn:Hres;
    [| done].
  destruct (resolve_resource_static (config_of rp) resolved eq_refl Hres)
    as (r & Hr & Hne & ->).
  destruct (price_converter _ _ _); [| done].
  destruct (getAddress _); [done |].
  destruct (getAddress _); [done |].
  intros [= <-]. cbn. repeat split. by exists r.
Qed.

(** The entries [forRoutes] builds: one per pattern, in order. *)
Lemma forRoutes_entries (patterns : list RoutePattern)
    (entries : list (RoutePattern * Middleware)) :
  Forall2 (fun rp entry =>
             match new_PaymentMiddleware (config_of rp) with
             | inl e => inl e
             | inr mw => inr (rp, mw)
             end = inr entry) patterns entries ->
  map fst entries = patterns
  /\ forall rp, rp ∈ patterns ->
       exists mw, (rp, mw) ∈ entries
                  /\ new_PaymentMiddleware (config_of rp) = inr mw.
Proof.
  induction 1 as [| rp entry patterns entries Hone _ [IHmap IHin]]; cbn.
  - split; [done |]. by intros rp ?%elem_of_nil.
  - destruct (new_PaymentMiddleware (config_of rp)) as [e | mw] eqn:Hnew;
      [done |].
    injection Hone as <-. cbn. split; [by rewrite IHmap |].
    intros rp' [-> | Hin]%elem_of_cons.
    + exists mw. split; [by left | done].
    + destruct (IHin rp' Hin) as (mw' & Hin' & Hnew').
      exists mw'. split; [by right | done].
Qed.

(** X16. [forRoutes] never passes [resourceFromRequest] to the
    constructor: it returns a map only if every route pattern declares a
    non-empty [config.resource]. *)
Theorem forRoutes_requires_resource
    (m : MiddlewareRoutesMap TRequest W Price PaymentPayload RoutePattern) :
  the_map = inr m ->
  forall rp, rp ∈ computeRoutePatterns routes ->
    exists r, rc_config (rp_config rp) ≫= m_resource = Some r /\ r <> "".
Proof.
  unfold forRoutes.
  destruct (Array_map _ (computeRoutePatterns routes)) as [e | entries]
    eqn:Hmap; [done |].
  intros _ rp Hin.
  apply Array_map_inr in Hmap. apply forRoutes_entries in Hmap as [_ Hall].
  destruct (Hall rp Hin) as (mw & _ & Hnew).
  destruct (route_middleware rp mw Hnew) as (_ & _ & _ & _ & r & Hr & Hne & _).
  by exists r.
Qed.

(** X17. [forRoutes] fails with the error of the first route pattern
    whose middleware cannot be constructed; when that pattern has no
    [config.resource], or an empty one, the error is the configuration
    error about the missing resource. *)
Theorem forRoutes_first_failure (pre post : list RoutePattern)
    (rp : RoutePattern) :
  computeRoutePatterns routes = pre ++ rp :: post ->
  (forall rp', rp' ∈ pre ->
     exists mw, new_PaymentMiddleware (config_of rp') = inr mw) ->
  (forall e, new_PaymentMiddleware (config_of rp) = inl e -> the_map = inl e)
  /\ (rc_config (rp_config rp) ≫= m_resource = None
      \/ rc_config (rp_config rp) ≫= m_resource = Some "" ->
      the_map
      = inl (PaymentMiddlewareConfigError
               "Either config.resource or resourceFromRequest must be provided")).
Proof.
  intros Hpatterns Hpre.
  assert (Hfail : forall e,
            new_PaymentMiddleware (config_of rp) = inl e -> the_map = inl e).
  { intros e Hnew. unfold forRoutes. rewrite Hpatterns.
    erewrite Array_map_inl; [done | | by rewrite Hnew].
    apply Forall_forall. intros rp' Hin.
    destruct (Hpre rp' Hin) as [mw Hmw]. rewrite Hmw. by eexists. }
  split; [done |].
  intros Hres. apply Hfail.
  unfold new_PaymentMiddleware, resolve_resource; cbn.
  destruct (rc_config (rp_config rp)) as [meta |]; cbn in *; [| done].
  destruct (m_resource meta) as [r |]; cbn in *; [| done].
  destruct Hres as [Hres | Hres]; [done |]. by injection Hres as ->.
Qed.

(** The case analysis behind the next theorem, shared with later proofs. *)
Lemma forRoutes_match_cases
    (m : MiddlewareRoutesMap TRequest W Price PaymentPayload RoutePattern)
    (path method : string) :
  NoDup (computeRoutePatterns routes) ->
  the_map = inr m ->
  mrm_routePatterns m = computeRoutePatterns routes
  /\ (findMatchingRoute (computeRoutePatterns routes) path method = None ->
      MiddlewareRoutesMap_match findMatchingRoute m path method = None)
  /\ (forall rp,
        findMatchingRoute (computeRoutePatterns routes) path method = Some rp ->
        (rp ∉ computeRoutePatterns routes ->
         MiddlewareRoutesMap_match findMatchingRoute m path method = None)
        /\ (rp ∈ computeRoutePatterns routes ->
            exists mw r,
              MiddlewareRoutesMap_match findMatchingRoute m path method
              = Some mw
              /\ new_PaymentMiddleware (config_of rp) = inr mw
              /\ verify (mw_facilitator mw)
                 = verify (useFacilitatorFn facilitator)
              /\ settle (mw_facilitator mw)
                 = settle (useFacilitatorFn facilitator)
              /\ rc_config (rp_config rp) ≫= m_resource = Some r
              /\ mw_resource mw = inl r)).
Proof.
  intros Hnd. unfold forRoutes.
  destruct (Array_map _ (computeRoutePatterns routes)) as [e | entries]
    eqn:Hmap; [done |].
  intros [= <-].
  apply Array_map_inr in Hmap. apply forRoutes_entries in Hmap as [Hkeys Hall].
  assert (Hnd' : NoDup (map fst entries)) by by rewrite Hkeys.
  unfold MiddlewareRoutesMap_match, new_MiddlewareRoutesMap, Map_keys; cbn.
  rewrite (Map_new_NoDup entries Hnd'), Hkeys.
  split; [done |]. split; [by intros -> |].
  intros rp ->. split.
  - intros Hnot. apply Map_get_None. by rewrite Hkeys.
  - intros Hin. destruct (Hall rp Hin) as (mw & Hentry & Hnew).
    destruct (route_middleware rp mw Hnew)
      as (Hv & Hs & _ & _ & r & Hr & _ & Hres).
    exists mw, r. repeat split; try done. by apply Map_get_Some.
Qed.

(** X18. With pairwise distinct route patterns, the map [forRoutes]
    returns keeps them in order, and [match] answers with the middleware
    constructed for the pattern that [findMatchingRoute] selects among
    them: it verifies and settles through the injected facilitator and
    announces the static resource of that route. No pattern selected, or
    one that is not in the map, gives [undefined]. *)
Theorem forRoutes_match
    (m : MiddlewareRoutesMap TRequest W Price PaymentPayload RoutePattern)
    (path method : string) :
  NoDup (computeRoutePatterns routes) ->
  the_map = inr m ->
  mrm_routePatterns m = computeRoutePatterns routes
  /\ (findMatchingRoute (computeRoutePatterns routes) path method = None ->
      MiddlewareRoutesMap_match findMatchingRoute m path method = None)
  /\ (forall rp,
        findMatchingRoute (computeRoutePatterns routes) path method = Some rp ->
        (rp ∉ computeRoutePatterns routes ->
         MiddlewareRoutesMap_match findMatchingRoute m path method = None)
        /\ (rp ∈ computeRoutePatterns routes ->
            exists mw r,
              MiddlewareRoutesMap_match findMatchingRoute m path method
              = Some mw
              /\ new_PaymentMiddleware (config_of rp) = inr mw
              /\ verify (mw_facilitator mw)
                 = verify (useFacilitatorFn facilitator)
              /\ settle (mw_facilitator mw)
                 = settle (useFacilitatorFn facilitator)
              /\ rc_config (rp_config rp) ≫= m_resource = Some r
              /\ mw_resource mw = inl r)).
Proof. exact (forRoutes_match_cases m path method). Qed.

End RouteProperties.

(** * Properties of the request functions and factories *)

Lemma append_String (c : Ascii.ascii) (t b : string) :
  String c t +:+ b = String c (t +:+ b).
Proof. reflexivity. Qed.

Lemma append_empty (b : string) : "" +:+ b = b.
Proof. reflexivity. Qed.

Lemma prefix_spec (t s : string) :
  String.prefix t s = true <-> exists b, s = t +:+ b.
Proof.
  revert s. induction t as [| c t IH]; intros s; cbn.
  - split; [by exists s | by destruct s].
  - destruct s as [| c' s]; cbn.
    + split; [done | by intros [b ?]].
    + destruct (Ascii.ascii_dec c c') as [<- | Hne].
      * rewrite IH. split; intros [b Hb]; exists b;
          rewrite append_String in *; congruence.
      * split; [done |]. intros [b Hb]. rewrite append_String in Hb.
        congruence.
Qed.

(** [s.includes(t)] holds exactly when [t] occurs in [s]. *)
Lemma includes_spec (t s : string) :
  includes t s = true <-> exists a b, s = a +:+ t +:+ b.
Proof.
  induction s as [| c s IH].
  - change (includes t "") with (String.prefix t "" || false).
    rewrite orb_false_r, prefix_spec. split.
    + intros [b Hb]. by exists "", b.
    + intros ([| c a] & b & Hab); [by exists b | done].
  - change (includes t (String c s))
      with (String.prefix t (String c s) || includes t s).
    rewrite orb_true_iff, prefix_spec, IH. split.
    + intros [[b Hb] | (a & b & Hab)].
      * by exists "", b.
      * exists (String c a), b. by rewrite append_String, Hab.
    + intros ([| c' a] & b & Hab).
      * left. by exists b.
      * right. rewrite append_String in Hab. injection Hab as _ Hab.
        by exists a, b.
Qed.

Section HttpProperties.
Context {W Price PaymentPayload FacilitatorConfig PaywallConfig : Type}.
Context {collaborators :
  Collaborators HttpRequest W Price PaymentPayload FacilitatorConfig PaywallConfig}.
Variable decodePayment : string -> ErrorOrString + PaymentPayload.

Local Abbreviation St := (State HttpRequest W PaymentPayload).

(** X19. [canRenderPaywall] answers [true] exactly when the request has
    an [Accept] header in which ["text/html"] occurs and a [User-Agent]
    header in which ["Mozilla"] occurs; a missing header counts as
    empty, so a request lacking either one never gets the paywall. *)
Theorem http_canRenderPaywall_spec (req : HttpRequest) :
  http_canRenderPaywall req = true
  <-> exists acceptHeader userAgent,
        header req "Accept" = Some acceptHeader
        /\ header req "User-Agent" = Some userAgent
        /\ (exists a b, acceptHeader = a +:+ "text/html" +:+ b)
        /\ (exists a b, userAgent = a +:+ "Mozilla" +:+ b).
Proof.
  assert (Hor : forall needle value,
            needle <> "" ->
            includes needle (or_empty value) = true
            <-> exists s, value = Some s
                          /\ exists a b, s = a +:+ needle +:+ b).
  { intros needle value Hneedle. rewrite includes_spec. unfold or_empty, truthy.
    destruct value as [s |].
    - destruct (decide (s = "")) as [-> | Hs].
      + rewrite bool_decide_eq_true_2 by done. cbn. split.
        * intros (a & b & Hab). exists "". split; [done |]. by exists a, b.
        * intros (s & [= <-] & a & b & Hab). by exists a, b.
      + rewrite bool_decide_eq_false_2 by done. cbn. split.
        * intros Hab. by exists s.
        * by intros (s' & [= <-] & Hab).
    - split.
      + intros ([| c a] & b & Hab); [| done].
        cbn in Hab. destruct needle; [done | discriminate].
      + by intros (s & ? & _). }
  unfold http_canRenderPaywall. rewrite andb_true_iff.
  rewrite !Hor by done. split.
  - intros [(acc & Hacc & Ha) (ua & Hua & Hu)]. by exists acc, ua.
  - intros (acc & ua & Hacc & Hua & Ha & Hu). split; eauto.
Qed.

(** X20. [withPayment] always hands [resourceFromRequest] to the
    constructor, so it cannot fail for a missing resource: it throws a
    configuration error exactly when the price does not convert, with
    the converter's message. *)
Theorem withPayment_ConfigError_iff
    (cfg : WithPaymentConfig Price FacilitatorConfig PaywallConfig)
    (m : string) :
  withPayment decodePayment cfg = inl (PaymentMiddlewareConfigError m)
  <-> processPriceToAtomicAmount (rc_price (wp_route cfg))
        (rc_network (wp_route cfg)) = AtomicError m.
Proof.
  unfold withPayment, new_PaymentMiddleware, resolve_resource, price_converter.
  cbn.
  destruct (rc_config (wp_route cfg)) as [meta |]; cbn;
    [destruct (m_resource meta) as [r |]; cbn; [destruct (truthy r); cbn |] |].
  all: destruct (processPriceToAtomicAmount _ _) as [amount asset | err];
    [destruct (getAddress (wp_payTo cfg));
     [| destruct (getAddress (address asset))] |].
  all: split; intros Herr; by simplify_eq.
Qed.

(** X21. A route wrapped by [withPayment], on a request whose
    [X-PAYMENT] header is missing or empty: the header is not decoded,
    and neither the handler nor the facilitator is called. A browser
    gets a response with status 402, content type [text/html] and an
    HTML page as the body, which is [customPaywallHtml] when that is
    set; any other client gets the 402 rejection
    ["X-PAYMENT header is required"], listing one requirement whose
    resource is [config.resource] when that is a non-empty string and
    the request's [protocol//host/pathname] otherwise. *)
Theorem withPayment_unpaid_request
    (cfg : WithPaymentConfig Price FacilitatorConfig PaywallConfig)
    (wrapped : HttpRequest -> M HttpRequest W PaymentPayload Response)
    (req : HttpRequest) (st : St) :
  withPayment decodePayment cfg = inr wrapped ->
  header req "X-PAYMENT" = None \/ header req "X-PAYMENT" = Some "" ->
  (http_canRenderPaywall req = true ->
   exists html,
     wrapped req st
     = (Returned {| status := 402;
                    headers := {["Content-Type" := "text/html"]};
                    body := BodyHtml html; headersSent := false |}, st)
     /\ forall h, rc_config (wp_route cfg) ≫= m_customPaywallHtml = Some h ->
                  html = h)
  /\ (http_canRenderPaywall req = false ->
      exists x r,
        wrapped req st = (Returned (json_402 ∅ x), st)
        /\ error x = Str "X-PAYMENT header is required"
        /\ payer x = None
        /\ accepts x = [r]
        /\ (forall s, rc_config (wp_route cfg) ≫= m_resource = Some s ->
                      s <> "" -> resource r = s)
        /\ (rc_config (wp_route cfg) ≫= m_resource = None
            \/ rc_config (wp_route cfg) ≫= m_resource = Some "" ->
            resource r = protocol req +:+ "//" +:+ host req +:+ pathname req)).
Proof.
  unfold withPayment.
  destruct (new_PaymentMiddleware (withPayment_config decodePayment cfg))
    as [e | mw] eqn:Hnew; [done |].
  intros [= <-] Hheader.
  assert (Hextract : mw_paymentFromRequest mw req = inr None).
  { assert (Hmw : mw_paymentFromRequest mw
                  = next_paymentFromRequest decodePayment).
    { revert Hnew. unfold new_PaymentMiddleware.
      repeat case_match; try done. by intros [= <-]. }
    rewrite Hmw. unfold next_paymentFromRequest, paymentFromRequest_under.
    by destruct Hheader as [-> | ->]. }
  assert (Hrender : mw_canRenderPaywall mw = Some http_canRenderPaywall).
  { revert Hnew. unfold new_PaymentMiddleware.
    repeat case_match; try done. by intros [= <-]. }
  destruct (constructed_requirements_cases _ mw req Hnew)
    as (amount & asset & payTo' & asset' & r & _ & _ & _ & Hreqs & Hstatic & Hdyn).
  assert (Hcustom : customPaywallHtml mw
                    = rc_config (wp_route cfg) ≫= m_customPaywallHtml).
  { revert Hnew. unfold new_PaymentMiddleware.
    repeat case_match; try done. by intros [= <-]. }
  unfold withPayment_middleware, try_catch, bind, acquirePayment.
  rewrite Hextract, Hrender. split; intros Hbrowser; rewrite Hbrowser; cbn.
  - eexists. split; [reflexivity |].
    intros h Hh. by rewrite Hcustom, Hh.
  - eexists _, _. split; [reflexivity |]. cbn.
    split; [done |]. split; [done |]. split; [exact Hreqs |]. cbn. split.
    + exact Hstatic.
    + intros Hnone. by apply (Hdyn next_resourceFromRequest).
Qed.

(** X22. A route wrapped by [withPayment], on a request whose [X-PAYMENT]
    header the decoder refuses with [e]: the client gets the 402
    rejection whose [error] is the text of [e], and neither the
    verifier, the handler nor the settler is called. *)
Theorem withPayment_malformed_payment
    (cfg : WithPaymentConfig Price FacilitatorConfig PaywallConfig)
    (wrapped : HttpRequest -> M HttpRequest W PaymentPayload Response)
    (req : HttpRequest) (st : St) (paymentHeader : string)
    (e : ErrorOrString) :
  withPayment decodePayment cfg = inr wrapped ->
  header req "X-PAYMENT" = Some paymentHeader ->
  paymentHeader <> "" ->
  decodePayment paymentHeader = inl e ->
  exists x,
    wrapped req st = (Returned (json_402 ∅ x), st)
    /\ error x = e
    /\ toJSON toJsonSafe x
       = JObj [ ("x402Version", JNum 1);
                ("error", JStr (error_text e));
                ("accepts", toJsonSafe (accepts x));
                ("payer", JUndefined) ].
Proof.
  unfold withPayment.
  destruct (new_PaymentMiddleware (withPayment_config decodePayment cfg))
    as [e0 | mw] eqn:Hnew; [done |].
  intros [= <-] Hheader Hne Hdecode.
  assert (Hextract : mw_paymentFromRequest mw req = inl e).
  { assert (Hmw : mw_paymentFromRequest mw
                  = next_paymentFromRequest decodePayment).
    { revert Hnew. unfold new_PaymentMiddleware.
      repeat case_match; try done. by intros [= <-]. }
    rewrite Hmw. unfold next_paymentFromRequest, paymentFromRequest_under.
    rewrite Hheader. unfold truthy. rewrite bool_decide_eq_false_2 by done.
    cbn. by rewrite Hdecode. }
  unfold withPayment_middleware, try_catch, bind, acquirePayment.
  rewrite Hextract. cbn. by eexists.
Qed.

End HttpProperties.

Section FactoryProperties.
Context {W Price PaymentPayload FacilitatorConfig PaywallConfig : Type}.
Context {collaborators :
  Collaborators HttpRequest W Price PaymentPayload FacilitatorConfig PaywallConfig}.
Context {RoutePattern RoutesConfig : Type} `{EqDecision RoutePattern}.
Variable rp_config : RoutePattern -> RouteConfig Price.
Variable computeRoutePatterns : RoutesConfig -> list RoutePattern.
Variable findMatchingRoute :
  list RoutePattern -> string -> string -> option RoutePattern.
Variable decodePayment : string -> ErrorOrString + PaymentPayload.
Variable toUpperCase : string -> string.

Variable payTo : string.
Variable routes : RoutesConfig.
Variable facilitator : option FacilitatorConfig.
Variable paywall : option PaywallConfig.
Variable useFacilitatorFn : option FacilitatorConfig -> Facilitator W PaymentPayload.

Local Abbreviation St := (State HttpRequest W PaymentPayload).
Local Abbreviation Eff := (M HttpRequest W PaymentPayload).

(** X23. The three factories on a request that no route pattern
    matches: the Hono and Express handlers call the application's
    handler once and the facilitator not at all; the Next.js middleware
    lets the request continue without touching anything. *)
Theorem factories_pass_unmatched_requests (req : HttpRequest) (st : St) :
  NoDup (computeRoutePatterns routes) ->
  findMatchingRoute (computeRoutePatterns routes) (pathname req)
    (toUpperCase (method req)) = None ->
  (forall h : HttpRequest -> Eff (option Response),
     hono_paymentMiddleware_factory rp_config computeRoutePatterns
       findMatchingRoute decodePayment toUpperCase payTo routes facilitator
       paywall useFacilitatorFn = inr h ->
     trace (snd (h req st)) = trace st ++ [EvHandler req])
  /\ (forall h : HttpRequest -> Eff unit,
        express_paymentMiddleware_factory rp_config computeRoutePatterns
          findMatchingRoute decodePayment toUpperCase payTo routes facilitator
          paywall useFacilitatorFn = inr h ->
        exists evs,
          trace (snd (h req st)) = trace st ++ EvHandler req :: evs
          /\ verify_calls evs = 0%nat /\ settle_calls evs = 0%nat)
  /\ (forall h : HttpRequest -> Eff NextResponse,
        next_paymentMiddleware_factory rp_config computeRoutePatterns
          findMatchingRoute decodePayment toUpperCase payTo routes facilitator
          paywall useFacilitatorFn = inr h ->
        h req st = (Returned (NextContinue ∅), st)).
Proof.
  intros Hnd Hnone.
  unfold hono_paymentMiddleware_factory, express_paymentMiddleware_factory,
    next_paymentMiddleware_factory.
  repeat split; intros h;
    match goal with
    | |- context [forRoutes ?a ?b ?c ?d ?e ?f ?g ?i ?j] =>
        destruct (forRoutes a b c d e f g i j) as [e0 | m] eqn:Hmap; [done |];
        destruct (forRoutes_match_cases a b findMatchingRoute c d e f g i j m
                    (pathname req) (toUpperCase (method req)) Hnd Hmap)
          as (_ & Hmiss & _)
    end;
    intros [= <-]; specialize (Hmiss Hnone).
  - pose proof (hono_call_order_cases (route_of findMatchingRoute toUpperCase m)
                  paywall req st) as Horder.
    unfold route_of in Horder at 1. by rewrite Hmiss in Horder.
  - unfold express_paymentMiddleware, route_of. rewrite Hmiss.
    unfold express_next_unpatched.
    pose proof (run_handler_state req st) as (Hh & _).
    destruct (run_handler req st) as [[r | e |] st']; cbn in Hh |- *;
      rewrite Hh.
    + exists [EvOriginalEnd (BodyOther (h_content r))].
      by rewrite <- (assoc_L (++)).
    + by exists [].
    + by exists [].
  - unfold next_paymentMiddleware, route_of. by rewrite Hmiss.
Qed.

(** X24. The Hono factory, end to end, on a request that a route pattern
    of the map matches and that carries no payment (the [X-Payment]
    header is missing or empty) and is not from a browser: [c.res]
    becomes the 402 rejection ["X-PAYMENT header is required"], keeping
    the headers it had, and lists one requirement whose resource is the
    [config.resource] of the matched route; the handler and the
    facilitator are not called. *)
Theorem hono_factory_unpaid_request
    (h : HttpRequest -> Eff (option Response)) (c : HttpRequest) (st : St)
    (rp : RoutePattern) :
  NoDup (computeRoutePatterns routes) ->
  hono_paymentMiddleware_factory rp_config computeRoutePatterns
    findMatchingRoute decodePayment toUpperCase payTo routes facilitator
    paywall useFacilitatorFn = inr h ->
  findMatchingRoute (computeRoutePatterns routes) (pathname c)
    (toUpperCase (method c)) = Some rp ->
  rp ∈ computeRoutePatterns routes ->
  header c "X-Payment" = None \/ header c "X-Payment" = Some "" ->
  http_canRenderPaywall c = false ->
  exists x r,
    h c st = (Returned None, set_res (json_402 (headers (res st)) x) st)
    /\ error x = Str "X-PAYMENT header is required"
    /\ payer x = None
    /\ accepts x = [r]
    /\ rc_config (rp_config rp) ≫= m_resource = Some (resource r)
    /\ network r = rc_network (rp_config rp)
    /\ scheme r = "exact".
Proof.
  intros Hnd Hfactory Hfound Hin Hheader Hbrowser.
  unfold hono_paymentMiddleware_factory in Hfactory.
  destruct (forRoutes _ _ _ _ _ _ _ _ _) as [e0 | m] eqn:Hmap; [done |].
  injection Hfactory as <-.
  destruct (forRoutes_match_cases _ _ findMatchingRoute _ _ _ _ _ _ _ m
              (pathname c) (toUpperCase (method c)) Hnd Hmap)
    as (_ & _ & Hhit).
  destruct (Hhit rp Hfound) as [_ Hhit'].
  destruct (Hhit' Hin) as (mw & r & Hmatch & Hnew & _ & _ & Hr & Hres).
  destruct (route_middleware _ _ _ _ _ _ _ rp mw Hnew)
    as (_ & _ & Hextract & Hrender & _).
  destruct (constructed_requirements_cases _ mw c Hnew)
    as (amount & asset & payTo' & asset' & r0 & _ & _ & _ & Hreqs & _ & _).
  unfold hono_paymentMiddleware, route_of. rewrite Hmatch.
  unfold try_catch, bind, acquirePayment.
  rewrite Hextract, Hrender.
  assert (Hnone : hono_paymentFromRequest decodePayment c = inr None).
  { unfold hono_paymentFromRequest, paymentFromRequest_under.
    by destruct Hheader as [-> | ->]. }
  rewrite Hnone, Hbrowser. cbn.
  eexists _, _. split; [reflexivity |]. cbn.
  split; [done |]. split; [done |].
  unfold paymentRequirements, resource_of. rewrite Hres.
  split; [reflexivity |]. cbn. split; [exact Hr |].
  unfold paymentRequirements in Hreqs. injection Hreqs as Hreqs.
  by rewrite Hreqs.
Qed.

End FactoryProperties.

(** * The further properties on the concrete applications *)

Lemma acquirePayment_payment_inversion_witness :
  exists v w,
    Demo.decodePayment (Demo.paying "/weather") = inr (Some Demo.validPayment)
    /\ Demo.verify_ok Demo.validPayment
         (with_resource Demo.template "https://api.example.com/resource") 0%nat
       = (inr v, w)
    /\ isValid v = true.
Proof.
  destruct (acquirePayment_payment_inversion
              (collaborators := Demo.collaborators) Demo.middleware
              (Demo.paying "/weather") Demo.accepted Demo.start Demo2.verified
              (Demo.payment Demo.settle_ok) eq_refl)
    as (v & w & Hextract & _ & Hverify & Hvalid & _).
  by exists v, w.
Defined.

Lemma acquirePayment_error_inversion_witness :
  accepts (new_X402Error (Str "insufficient_funds") Demo.accepted (Some "0xdef"))
  = Demo.accepted.
Proof.
  apply (acquirePayment_error_inversion
           (collaborators := Demo.collaborators) Demo.strict_middleware
           (Demo.paying "/weather") Demo.accepted Demo.start Demo2.verified).
  reflexivity.
Defined.

Lemma verifier_rejection_propagates_witness :
  express_paymentMiddleware (collaborators := Demo.collaborators)
    (fun _ => Some Demo2.unreachable_middleware) None
    (Demo.paying "/weather") Demo.start
  = (Threw (ExnForeign (ErrorObj "Error" "facilitator unreachable")),
     Demo2.verified).
Proof.
  apply (verifier_rejection_propagates (collaborators := Demo.collaborators)
           (fun _ => Some Demo2.unreachable_middleware) None
           Demo2.unreachable_middleware (Demo.paying "/weather") Demo.start
           Demo.validPayment
           (with_resource Demo.template "https://api.example.com/resource")
           (ErrorObj "Error" "facilitator unreachable") 0%nat
           eq_refl eq_refl eq_refl).
  reflexivity.
Defined.


Lemma express_finalization_witness :
  fst (express_paymentMiddleware (collaborators := Demo.collaborators)
         Demo.middlewares None (Demo.paying "/weather") Demo.start)
  <> Pending
  /\ exists evs,
       trace (snd (express_paymentMiddleware
                     (collaborators := Demo.collaborators) Demo.middlewares
                     None (Demo.paying "/weather") Demo.start))
       = trace (Demo2.answered (Demo.paying "/weather")) ++ evs
         ++ [EvOriginalEnd (BodyOther "/weather")]
       /\ ((400 <= 200 /\ evs = [])
           \/ (200 < 400
               /\ evs = [EvSettle Demo.validPayment
                           (with_resource Demo.template
                              "https://api.example.com/resource")])).
Proof.
  exact (express_finalization (collaborators := Demo.collaborators)
           Demo.middlewares None (Demo.paying "/weather") Demo.start
           Demo2.verified (Demo2.answered (Demo.paying "/weather"))
           Demo.middleware (Demo.payment Demo.settle_ok)
           (Responded Demo2.weather_response)
           eq_refl eq_refl eq_refl eq_refl).
Defined.


Lemma next_continue_means_settled_witness :
  exists payment resp,
    payload payment = Demo.validPayment
    /\ s_success resp = true
    /\ ap_settle payment (payload payment) (selected payment) 0%nat
       = (inr resp, 1%nat).
Proof.
  destruct (next_continue_means_settled (collaborators := Demo.collaborators)
              Demo.middlewares None (Demo.paying "/weather") Demo.start
              {| world := 1%nat;
                 trace := [EvVerify Demo.validPayment
                             (with_resource Demo.template
                                "https://api.example.com/resource");
                           EvSettle Demo.validPayment
                             (with_resource Demo.template
                                "https://api.example.com/resource")];
                 res := Demo.blank; deferred := None;
     res_end := OriginalEnd |}
              Demo.middleware {["X-PAYMENT-RESPONSE" := "0x123"]}
              eq_refl eq_refl)
    as (payment & st1 & resp & w & Hacq & Hcall & Hok & _ & _).
  exists payment, resp.
  injection Hacq as <- <-. cbn in Hcall |- *. injection Hcall as <- <-.
  by repeat split.
Defined.

Lemma next_call_order_witness :
  exists p r evs,
    trace (snd (next_paymentMiddleware (collaborators := Demo.collaborators)
                  Demo.middlewares None (Demo.paying "/weather") Demo.start))
    = trace Demo.start ++ EvVerify p r :: evs
    /\ evs `prefix_of` [EvSettle p r].
Proof.
  destruct (proj1 (next_call_order (collaborators := Demo.collaborators)
                     Demo.middlewares None (Demo.paying "/weather")
                     Demo.start Demo.middleware) eq_refl)
    as [Hsame | Hcalls].
  - discriminate Hsame.
  - exact Hcalls.
Defined.

Lemma paywall_branch_witness :
  hono_paymentMiddleware (collaborators := Demo.collaborators)
    Demo.middlewares None (Demo.visitor "/weather") Demo.start
  = (Returned (Some {| status := 402;
                       headers :=
                         {["Content-Type" := "text/html; charset=UTF-8"]};
                       body := BodyHtml "<html>Paywall</html>";
                       headersSent := false |}), Demo.start).
Proof.
  apply (paywall_branch (collaborators := Demo.collaborators)
           Demo.middlewares None (Demo.visitor "/weather") Demo.start
           Demo.middleware eq_refl eq_refl).
Defined.

Lemma paid_request_served_witness :
  fst (withPayment_middleware (collaborators := Demo.collaborators) None
         Demo.middleware (Demo.paying "/weather") Demo.start)
  = Returned {| status := 200;
                headers := {["X-PAYMENT-RESPONSE" := "0x123"]};
                body := BodyOther "/weather"; headersSent := false |}.
Proof.
  exact (proj2 (proj2 (paid_request_served
                         (collaborators := Demo.collaborators)
                         Demo.middlewares None (Demo.paying "/weather")
                         Demo.start Demo2.verified
                         (Demo2.answered (Demo.paying "/weather"))
                         Demo.middleware (Demo.payment Demo.settle_ok)
                         Demo2.weather_response
                         {| s_success := true; s_transaction := Some "0x123";
                            s_network := Some "base-sepolia"; s_payer := None;
                            s_errorReason := None |} 1%nat
                         eq_refl eq_refl eq_refl eq_refl eq_refl eq_refl))).
Defined.

Lemma settlement_failure_response_witness :
  status (res (snd (hono_paymentMiddleware
                      (collaborators := Demo.collaborators)
                      Demo2.unsettled_middlewares None
                      (Demo.paying "/weather") Demo.start))) = 402
  /\ status (res (snd (express_paymentMiddleware
                         (collaborators := Demo.collaborators)
                         Demo2.unsettled_middlewares None
                         (Demo.paying "/weather") Demo.start))) = 402
  /\ body (res (snd (express_paymentMiddleware
                       (collaborators := Demo.collaborators)
                       Demo2.unsettled_middlewares None
                       (Demo.paying "/weather") Demo.start)))
     = BodyOther "/weather".
Proof.
  destruct (settlement_failure_response (collaborators := Demo.collaborators)
              Demo2.unsettled_middlewares None (Demo.paying "/weather")
              Demo.start Demo2.verified
              (Demo2.answered (Demo.paying "/weather"))
              Demo2.unsettled_middleware (Demo.payment Demo.settle_refused)
              Demo2.weather_response Demo2.refusal
              eq_refl eq_refl eq_refl eq_refl eq_refl)
    as ((_ & Hhono) & _ & _ & _ & Hexpress & _).
  rewrite Hhono, (Hexpress eq_refl). by repeat split.
Defined.

Lemma forRoutes_requires_resource_witness :
  exists r,
    rc_config (HttpDemo.rp_config 0) ≫= m_resource = Some r /\ r <> "".
Proof.
  apply (forRoutes_requires_resource (collaborators := HttpDemo.collaborators)
           HttpDemo.rp_config HttpDemo.computeRoutePatterns HttpDemo.payTo
           [0%nat] (hono_paymentFromRequest HttpDemo.decodePayment)
           (Some http_canRenderPaywall) None None HttpDemo.facilitator_of
           HttpDemo.weather_map eq_refl 0%nat).
  by left.
Defined.

Lemma forRoutes_first_failure_witness :
  forRoutes (collaborators := HttpDemo.collaborators) HttpDemo.rp_config
    HttpDemo.computeRoutePatterns HttpDemo.payTo [0%nat; 1%nat]
    (hono_paymentFromRequest HttpDemo.decodePayment)
    (Some http_canRenderPaywall) None None HttpDemo.facilitator_of
  = inl (PaymentMiddlewareConfigError
           "Either config.resource or resourceFromRequest must be provided").
Proof.
  pose proof (forRoutes_first_failure
                (collaborators := HttpDemo.collaborators)
                HttpDemo.rp_config HttpDemo.computeRoutePatterns
                HttpDemo.payTo [0%nat; 1%nat]
                (hono_paymentFromRequest HttpDemo.decodePayment)
                (Some http_canRenderPaywall) None None
                HttpDemo.facilitator_of [0%nat] [] 1%nat eq_refl) as Hfail.
  refine (proj2 (Hfail _) _).
  - intros rp' Hin. apply list_elem_of_singleton in Hin as ->.
    by exists HttpDemo.weather_middleware.
  - by left.
Defined.

Lemma forRoutes_match_witness :
  MiddlewareRoutesMap_match HttpDemo.findMatchingRoute HttpDemo.weather_map
    "/weather" "GET" = Some HttpDemo.weather_middleware
  /\ MiddlewareRoutesMap_match HttpDemo.findMatchingRoute HttpDemo.weather_map
       "/elsewhere" "GET" = None.
Proof.
  assert (Hnd : NoDup (HttpDemo.computeRoutePatterns [0%nat]))
    by apply NoDup_singleton.
  split.
  - destruct (forRoutes_match (collaborators := HttpDemo.collaborators)
                HttpDemo.rp_config HttpDemo.computeRoutePatterns
                HttpDemo.findMatchingRoute HttpDemo.payTo [0%nat]
                (hono_paymentFromRequest HttpDemo.decodePayment)
                (Some http_canRenderPaywall) None None
                HttpDemo.facilitator_of HttpDemo.weather_map
                "/weather" "GET" Hnd eq_refl) as (_ & _ & Hhit).
    destruct (Hhit 0%nat eq_refl) as [_ Hin].
    destruct Hin as (mw & r & Hmatch & Hnew & _); [by left |].
    rewrite Hmatch. by injection Hnew as <-.
  - apply (forRoutes_match (collaborators := HttpDemo.collaborators)
             HttpDemo.rp_config HttpDemo.computeRoutePatterns
             HttpDemo.findMatchingRoute HttpDemo.payTo [0%nat]
             (hono_paymentFromRequest HttpDemo.decodePayment)
             (Some http_canRenderPaywall) None None
             HttpDemo.facilitator_of HttpDemo.weather_map
             "/elsewhere" "GET" Hnd eq_refl).
    reflexivity.
Defined.

Lemma withPayment_unpaid_request_witness :
  exists x r,
    withPayment_middleware (collaborators := HttpDemo.collaborators) None
      HttpDemo.bare_middleware (HttpDemo.request "/bare" []) HttpDemo.start
    = (Returned (json_402 (collaborators := HttpDemo.collaborators) ∅ x),
       HttpDemo.start)
    /\ accepts x = [r]
    /\ resource r = "https://api.example.com/bare".
Proof.
  destruct (proj2 (withPayment_unpaid_request
                     (collaborators := HttpDemo.collaborators)
                     HttpDemo.decodePayment HttpDemo.bare_payment
                     (withPayment_middleware None HttpDemo.bare_middleware)
                     (HttpDemo.request "/bare" []) HttpDemo.start
                     eq_refl (or_introl eq_refl)) eq_refl)
    as (x & r & Hrun & _ & _ & Haccepts & _ & Hresource).
  exists x, r. split; [exact Hrun |]. split; [exact Haccepts |].
  apply Hresource. by left.
Defined.

Lemma withPayment_malformed_payment_witness :
  exists x,
    withPayment_middleware (collaborators := HttpDemo.collaborators) None
      HttpDemo.bare_middleware
      (HttpDemo.request "/bare" [("X-PAYMENT", "garbage")]) HttpDemo.start
    = (Returned (json_402 (collaborators := HttpDemo.collaborators) ∅ x),
       HttpDemo.start)
    /\ error x = ErrorObj "Error" "Invalid payment".
Proof.
  destruct (withPayment_malformed_payment
              (collaborators := HttpDemo.collaborators)
              HttpDemo.decodePayment HttpDemo.bare_payment
              (withPayment_middleware None HttpDemo.bare_middleware)
              (HttpDemo.request "/bare" [("X-PAYMENT", "garbage")])
              HttpDemo.start "garbage" (ErrorObj "Error" "Invalid payment")
              eq_refl eq_refl)
    as (x & Hrun & Herror & _); [discriminate | reflexivity |].
  by exists x.
Defined.

Lemma factories_pass_unmatched_requests_witness :
  trace (snd (hono_paymentMiddleware (collaborators := HttpDemo.collaborators)
                (route_of HttpDemo.findMatchingRoute HttpDemo.toUpperCase
                   HttpDemo.weather_map) None
                (HttpDemo.request "/elsewhere" []) HttpDemo.start))
  = trace HttpDemo.start ++ [EvHandler (HttpDemo.request "/elsewhere" [])].
Proof.
  apply (proj1 (factories_pass_unmatched_requests
                  (collaborators := HttpDemo.collaborators)
                  HttpDemo.rp_config HttpDemo.computeRoutePatterns
                  HttpDemo.findMatchingRoute HttpDemo.decodePayment
                  HttpDemo.toUpperCase HttpDemo.payTo [0%nat] None None
                  HttpDemo.facilitator_of (HttpDemo.request "/elsewhere" [])
                  HttpDemo.start (NoDup_singleton 0%nat) eq_refl)).
  reflexivity.
Defined.

Lemma hono_factory_unpaid_request_witness :
  exists x r,
    hono_paymentMiddleware (collaborators := HttpDemo.collaborators)
      (route_of HttpDemo.findMatchingRoute HttpDemo.toUpperCase
         HttpDemo.weather_map) None
      (HttpDemo.request "/weather" [("Accept", "application/json")])
      HttpDemo.start
    = (Returned None,
       set_res (json_402 (collaborators := HttpDemo.collaborators) ∅ x) HttpDemo.start)
    /\ error x = Str "X-PAYMENT header is required"
    /\ accepts x = [r]
    /\ resource r = "https://api.example.com/resource".
Proof.
  destruct (hono_factory_unpaid_request
              (collaborators := HttpDemo.collaborators)
              HttpDemo.rp_config HttpDemo.computeRoutePatterns
              HttpDemo.findMatchingRoute HttpDemo.decodePayment
              HttpDemo.toUpperCase HttpDemo.payTo [0%nat] None None
              HttpDemo.facilitator_of
              (hono_paymentMiddleware
                 (route_of HttpDemo.findMatchingRoute HttpDemo.toUpperCase
                    HttpDemo.weather_map) None)
              (HttpDemo.request "/weather" [("Accept", "application/json")])
              HttpDemo.start 0%nat (NoDup_singleton 0%nat) eq_refl eq_refl)
    as (x & r & Hrun & Herror & _ & Haccepts & Hresource & _);
    [by left | by left | reflexivity |].
  exists x, r. split; [exact Hrun |]. split; [exact Herror |].
  split; [exact Haccepts |]. cbn in Hresource. by injection Hresource as <-.
Defined.
